(** * Build optimisation pipeline (build/lib/optimize) and terminal history
      contribution: a shallow embedding and its properties.

    The embedding follows the TypeScript sources function by function.
    JavaScript strings are sequences of UTF-16 code units, promises are
    modelled by their settled outcome, and the external collaborators
    (file system, bundler, JSON parser, gulp plugins) are the fields of the
    class [Host]. *)

From Stdlib Require Import NArith List String Ascii Lia Permutation Sorted.
From stdpp Require Import gmap list.
Import ListNotations.

Local Open Scope N_scope.

(** ** JavaScript strings *)

Module JS.

(** A JavaScript string: a sequence of 16-bit code units. *)
Definition jsstring := list N.

(** Literal: every character of an 8-bit source literal is one code unit. *)
Definition lit (s : string) : jsstring :=
  List.map N_of_ascii (list_ascii_of_string s).

(** [s.endsWith(suffix)], also the regular expression [/suffix$/] for a
    literal suffix. *)
Fixpoint startsWith (prefix s : jsstring) : bool :=
  match prefix, s with
  | [], _ => true
  | _ :: _, [] => false
  | p :: prefix', c :: s' => (p =? c) && startsWith prefix' s'
  end.

Definition endsWith (suffix s : jsstring) : bool :=
  startsWith (rev suffix) (rev s).

(** [a === b] on strings. *)
Fixpoint eqb (a b : jsstring) : bool :=
  match a, b with
  | [], [] => true
  | x :: a', y :: b' => (x =? y) && eqb a' b'
  | _, _ => false
  end.

(** The line feed, ['\n']. *)
Definition LF : jsstring := [10].

(** [parts.join(sep)] *)
Fixpoint join (sep : jsstring) (parts : list jsstring) : jsstring :=
  match parts with
  | [] => []
  | [p] => p
  | p :: rest => p ++ sep ++ join sep rest
  end.

(** [s.replace(/\.[^/.]+$/, '')]: the match, if any, starts at the last
    dot of [s] and runs to the end over one or more characters that are
    neither a slash nor a dot. *)
Definition notSlashDot (c : N) : bool := negb ((c =? 47) || (c =? 46)).

Fixpoint dropExtensionRev (r : jsstring) (seen : bool) : option jsstring :=
  match r with
  | [] => None
  | c :: r' =>
      if notSlashDot c then dropExtensionRev r' true
      else if (c =? 46) && seen then Some r' else None
  end.

Definition replaceExtension (s : jsstring) : jsstring :=
  match dropExtensionRev (rev s) false with
  | Some r => rev r
  | None => s
  end.

(** [s.match(/[cls]+/g)] for a character class [cls]: the maximal runs of
    class characters from left to right, or null when there is none.
    [cur] is the run being read. *)
Fixpoint scanRuns (cls : N -> bool) (s : jsstring) (cur : jsstring)
  : list jsstring :=
  match s with
  | [] => match cur with [] => [] | _ => [cur] end
  | c :: s' =>
      if cls c then scanRuns cls s' (cur ++ [c])
      else match cur with
           | [] => scanRuns cls s' []
           | _ => cur :: scanRuns cls s' []
           end
  end.

Definition match_g (cls : N -> bool) (s : jsstring) : option (list jsstring) :=
  match scanRuns cls s [] with
  | [] => None
  | runs => Some runs
  end.

(** A run found by [match_g] is maximal: what follows it in the string,
    if anything, does not start with a class character. *)
Definition runEnds (cls : N -> bool) (post : jsstring) : Prop :=
  match post with
  | [] => True
  | c :: _ => cls c = false
  end.

(** [`${a[0]}`] *)
Definition index0 (a : list jsstring) : jsstring :=
  match a with
  | x :: _ => x
  | [] => lit "undefined"
  end.

(** WhiteSpace and LineTerminator code units, the ones [trim] removes. *)
Definition isWhiteSpace (c : N) : bool :=
  (c =? 9) || (c =? 10) || (c =? 11) || (c =? 12) || (c =? 13) ||
  (c =? 32) || (c =? 160) || (c =? 5760) ||
  ((8192 <=? c) && (c <=? 8202)) ||
  (c =? 8232) || (c =? 8233) || (c =? 8239) || (c =? 8287) ||
  (c =? 12288) || (c =? 65279).

Fixpoint trimStart (s : jsstring) : jsstring :=
  match s with
  | [] => []
  | c :: s' => if isWhiteSpace c then trimStart s' else s
  end.

Definition trimEnd (s : jsstring) : jsstring := rev (trimStart (rev s)).

Definition trim (s : jsstring) : jsstring := trimEnd (trimStart s).

(** Values thrown or passed as rejection reasons. *)
Inductive JsError :=
| Error (message : jsstring)
| TypeError
| SyntaxError.

(** The settled state of a promise. *)
Inductive Settled (A : Type) :=
| Fulfilled (a : A)
| Rejected (e : JsError).
Arguments Fulfilled {A} a.
Arguments Rejected {A} e.

Definition isFulfilled {A} (p : Settled A) : bool :=
  match p with Fulfilled _ => true | Rejected _ => false end.

(** [await p; k] *)
Definition await {A B} (p : Settled A) (k : A -> Settled B) : Settled B :=
  match p with
  | Fulfilled a => k a
  | Rejected e => Rejected e
  end.

End JS.
Export JS.

Notation "'let!' x ':=' p 'in' k" := (await p (fun x => k))
  (at level 10, x name, p at level 100, k at level 200).

(** ** Entry points (declared in ./bundle as IEntryPoint and IFile; the
       fields are those the optimiser reads) *)

Module IFile.
Record t := { path : jsstring }.
End IFile.

Record IEntryPoint := {
  name : jsstring;
  include : option (list jsstring);
  exclude : option (list jsstring);
  prepend : option (list IFile.t);
  dest : option jsstring
}.

(** ** MentionedModuleSet *)

Section MentionedModules.

(** [list?.forEach(set.add, set)] *)
Definition forEach_add (l : option (list jsstring)) (s : gset jsstring)
  : gset jsstring :=
  match l with
  | None => s
  | Some xs => fold_left (fun acc x => {[ x ]} ∪ acc) xs s
  end.

(** Lines 79-86 of optimizeESMTask. *)
Definition allMentionedModules (entryPoints : list IEntryPoint)
  : gset jsstring :=
  let added :=
    fold_left
      (fun s entryPoint =>
         forEach_add (exclude entryPoint)
           (forEach_add (include entryPoint)
              ({[ name entryPoint ]} ∪ s)))
      entryPoints ∅ in
  added ∖ {[ lit "vs/css" ]}.

(** [m] appears as the name of [ep] or inside its include or exclude list. *)
Definition mentions (ep : IEntryPoint) (m : jsstring) : Prop :=
  m = name ep ∨ m ∈ default [] (include ep) ∨ m ∈ default [] (exclude ep).

End MentionedModules.

(** ** Node runtime values *)

(** A Buffer: a sequence of bytes (each below 256). *)
Definition Buffer := list N.

(** Files produced by the bundler (esbuild.OutputFile) and its manifest. *)
Module Esbuild.

Record OutputFile := {
  path : jsstring;
  contents : Buffer;
  text : jsstring
}.

Record MetaInput := { bytes : N }.

(** [metafile.inputs]: an object keyed by input path, in insertion order. *)
Record Metafile := { inputs : list (jsstring * MetaInput) }.

Definition Object_keys {V} (o : list (jsstring * V)) : list jsstring :=
  List.map fst o.

Record BuildResult := {
  outputFiles : list OutputFile;
  metafile : Metafile
}.

Record Banner := { js : jsstring; css : jsstring }.

(** A plugin with one onLoad hook. *)
Record Plugin := {
  plugin_name : jsstring;
  onLoad_filter : jsstring -> bool;
  onLoad : jsstring -> Settled jsstring
}.

Inductive EntryPoint :=
| EntryPath (p : jsstring)
| EntryInOut (in_ out : jsstring).

Record BuildOptions := {
  bundle : bool;
  external : option (list jsstring);
  packages : option jsstring;
  platform : jsstring;
  format : option jsstring;
  sourcemap : jsstring;
  plugins : list Plugin;
  target : list jsstring;
  loader : list (jsstring * jsstring);
  assetNames : option jsstring;
  banner : option Banner;
  entryPoints : list EntryPoint;
  outdir : jsstring;
  write : bool;
  metafile_ : bool;
  minify : bool
}.

End Esbuild.

(** Vinyl files, the records that flow through the gulp streams. *)
Module Vinyl.
Section WithJSON.
Context {JSON : Type}.

Record File := {
  path : jsstring;
  base : jsstring;
  contents : Buffer;
  sourceMap : option JSON
}.

End WithJSON.
Arguments File : clear implicits.
End Vinyl.

(** ** Options of the tasks *)

Section Options.
Context {Language : Type}.

(** IOptimizeAMDTaskOpts, the fields the task reads. *)
Record IOptimizeAMDTaskOpts := {
  src : jsstring;
  entryPoints : list IEntryPoint;
  resources : list jsstring;
  header : option jsstring;
  languages : option (list Language);
  fileContentMapper : option (jsstring -> jsstring -> jsstring)
}.

(** The options handed to processNlsFiles. *)
Record NlsOptions := {
  nls_out : jsstring;
  fileHeader : jsstring;
  nls_languages : list Language
}.

End Options.
Arguments IOptimizeAMDTaskOpts : clear implicits.
Arguments NlsOptions : clear implicits.

Record IOptimizeCommonJSTaskOpts := {
  cjs_entryPoints : list jsstring;
  cjs_src : jsstring;
  cjs_platform : jsstring;
  cjs_external : list jsstring
}.

Record IOptimizeManualTaskOpts := {
  manual_src : list jsstring;
  manual_out : jsstring
}.

(** ** External collaborators

    What the optimiser imports and does not define: the Node runtime
    (fs, path, Buffer, JSON), esbuild, the gulp plugins, and the functions of
    the sibling modules ./bundle and ./i18n.  [JSON_parse] answers [None]
    where [JSON.parse] throws; [readFile] is [fs.promises.readFile] with a
    text encoding; [tslibPath] is the resolved location of tslib.es6.js;
    [gulp_src globs base] lists the files a glob list resolves to, in order;
    [stat_mtime] is [file.stat && file.stat.mtime]; [minimatch] is the test
    of a gulp-filter pattern. *)
Class Host (JSON Language : Type) := {
  JSON_parse : jsstring -> option JSON;
  Buffer_from : jsstring -> Buffer;
  Buffer_toString : Buffer -> jsstring;
  readFile : jsstring -> Settled jsstring;
  path_join : list jsstring -> jsstring;
  path_parse_name : jsstring -> jsstring;
  path_relative : jsstring -> jsstring -> jsstring;
  REPO_ROOT_PATH : jsstring;
  tslibPath : jsstring;
  removeAllTSBoilerplate : jsstring -> jsstring;
  esbuild_build : Esbuild.BuildOptions -> Settled Esbuild.BuildResult;
  gulp_src : list jsstring -> option jsstring -> list (Vinyl.File JSON);
  stat_mtime : Vinyl.File JSON -> option N;
  minimatch : jsstring -> Vinyl.File JSON -> bool;
  sourcemaps_init : Vinyl.File JSON -> Vinyl.File JSON;
  sourcemaps_write :
    option (Vinyl.File JSON -> jsstring) -> Vinyl.File JSON ->
    list (Vinyl.File JSON);
  gulpPostcss : Vinyl.File JSON -> Settled (Vinyl.File JSON);
  svgmin : Vinyl.File JSON -> Settled (Vinyl.File JSON);
  processNlsFiles :
    NlsOptions Language -> list (Vinyl.File JSON) -> list (Vinyl.File JSON)
}.

(** ** The optimiser: optimizeESMTask *)

Section Optimize.

Context `{host : Host JSON Language}.

Abbreviation VinylFile := (Vinyl.File JSON).
Abbreviation Opts := (IOptimizeAMDTaskOpts Language).

Definition DEFAULT_FILE_HEADER : jsstring :=
  join LF
    [ lit "/*!--------------------------------------------------------";
      lit " * Copyright (C) Microsoft Corporation. All rights reserved.";
      lit " *--------------------------------------------------------*/" ].

(** Lines 74-77: the CommonJS entry points are pushed onto [opts.entryPoints]. *)
Definition resolveEntryPoints (opts : Opts)
    (cjsOpts : option IOptimizeCommonJSTaskOpts) : list IEntryPoint :=
  match cjsOpts with
  | Some cjs =>
      entryPoints opts ++
      List.map
        (fun entryPoint =>
           {| name := path_parse_name entryPoint; include := None;
              exclude := None; prepend := None; dest := None |})
        (cjs_entryPoints cjs)
  | None => entryPoints opts
  end.

(** Lines 101-126: the banner of one entry point.  Every [readFile] is
    awaited, so a failing read rejects the enclosing async function. *)
Fixpoint prependLoop (opts : Opts) (items : list IFile.t)
    (banner : Esbuild.Banner) : Settled Esbuild.Banner :=
  match items with
  | [] => Fulfilled banner
  | item :: rest =>
      let fullpath := path_join [REPO_ROOT_PATH; src opts; IFile.path item] in
      let! source := readFile fullpath in
      prependLoop opts rest
        {| Esbuild.js := Esbuild.js banner ++ (source ++ LF);
           Esbuild.css := Esbuild.css banner |}
  end.

(** The file a prepend item is read from. *)
Definition prependPath (opts : Opts) (item : IFile.t) : jsstring :=
  path_join [REPO_ROOT_PATH; src opts; IFile.path item].

Definition computeBanner (opts : Opts)
    (entryPoint : IEntryPoint) : Settled Esbuild.Banner :=
  let banner := {| Esbuild.js := DEFAULT_FILE_HEADER;
                   Esbuild.css := DEFAULT_FILE_HEADER |} in
  let! tslib := readFile tslibPath in
  let banner := {| Esbuild.js := Esbuild.js banner ++ tslib;
                   Esbuild.css := Esbuild.css banner |} in
  match prepend entryPoint with
  | Some ((_ :: _) as items) => prependLoop opts items banner
  | _ => Fulfilled banner
  end.

(** Lines 108-117. *)
Definition boilerplateTrimmer : Esbuild.Plugin :=
  {| Esbuild.plugin_name := lit "boilerplate-trimmer";
     Esbuild.onLoad_filter := endsWith (lit ".js");
     Esbuild.onLoad := fun path =>
       let! contents := readFile path in
       Fulfilled (removeAllTSBoilerplate contents) |}.

(** Lines 98 and 128-154: the options of one [esbuild.build] call. *)
Definition buildOptions (opts : Opts)
    (entryPoint : IEntryPoint) (banner : Esbuild.Banner)
  : Esbuild.BuildOptions :=
  let dest_ :=
    match dest entryPoint with
    | Some d => replaceExtension d
    | None => name entryPoint
    end in
  {| Esbuild.bundle := true;
     Esbuild.external := exclude entryPoint;
     Esbuild.packages := Some (lit "external");
     Esbuild.platform := lit "neutral";
     Esbuild.format := Some (lit "esm");
     Esbuild.sourcemap := lit "external";
     Esbuild.plugins := [boilerplateTrimmer];
     Esbuild.target := [lit "es2022"];
     Esbuild.loader :=
       [ (lit ".ttf", lit "file"); (lit ".svg", lit "file");
         (lit ".png", lit "file"); (lit ".sh", lit "file") ];
     Esbuild.assetNames := Some (lit "media/[name]");
     Esbuild.banner :=
       if eqb (name entryPoint) (lit "vs/workbench/workbench.web.main")
       then None else Some banner;
     Esbuild.entryPoints :=
       [ Esbuild.EntryInOut
           (path_join [REPO_ROOT_PATH; src opts; name entryPoint ++ lit ".js"])
           dest_ ];
     Esbuild.outdir := path_join [REPO_ROOT_PATH; src opts];
     Esbuild.write := false;
     Esbuild.metafile_ := true;
     Esbuild.minify := false |}.

(** Lines 167-170: the loop over the manifest's input paths. *)
Fixpoint mapInputs (mapper : jsstring -> jsstring -> jsstring)
    (newText : jsstring) (inputs : list jsstring) : jsstring :=
  match inputs with
  | [] => newText
  | input :: rest => mapInputs mapper (mapper newText input) rest
  end.

(** Lines 156-184: one output file of a build becomes one Vinyl file. *)
Definition toVinyl (opts : Opts) (res : Esbuild.BuildResult)
    (file : Esbuild.OutputFile) : Settled VinylFile :=
  let contents := Esbuild.contents file in
  let '(contents, sourceMapFile) :=
    if endsWith (lit ".js") (Esbuild.path file) then
      ( match fileContentMapper opts with
        | Some mapper =>
            Buffer_from
              (mapInputs mapper (Esbuild.text file)
                 (Esbuild.Object_keys (Esbuild.inputs (Esbuild.metafile res))))
        | None => contents
        end,
        List.find
          (fun f => eqb (Esbuild.path f) (Esbuild.path file ++ lit ".map"))
          (Esbuild.outputFiles res) )
    else (contents, None) in
  let fileProps sourceMap :=
    {| Vinyl.contents := contents;
       Vinyl.sourceMap := sourceMap;
       Vinyl.path := Esbuild.path file;
       Vinyl.base := path_join [REPO_ROOT_PATH; src opts] |} in
  match sourceMapFile with
  | Some m =>
      match JSON_parse (Esbuild.text m) with
      | Some parsed => Fulfilled (fileProps (Some parsed))
      | None => Rejected SyntaxError
      end
  | None => Fulfilled (fileProps None)
  end.

(** The [then] handler of a build: the files it pushes, in order. *)
Fixpoint pushFiles (opts : Opts) (res : Esbuild.BuildResult)
    (outputFiles : list Esbuild.OutputFile) : Settled (list VinylFile) :=
  match outputFiles with
  | [] => Fulfilled []
  | file :: rest =>
      let! v := toVinyl opts res file in
      let! vs := pushFiles opts res rest in
      Fulfilled (v :: vs)
  end.

Definition onBuilt (opts : Opts) (res : Esbuild.BuildResult)
  : Settled (list VinylFile) :=
  pushFiles opts res (Esbuild.outputFiles res).

(** Lines 88-193: bundleAsync.  The loop awaits the banner reads and
    starts one build per entry point without awaiting it. *)
Definition Task := Settled (list VinylFile).

(** One iteration of the loop: the banner reads are awaited, the build is
    started and chained with the [then] handler, and is not awaited. *)
Definition startTask (opts : Opts) (entryPoint : IEntryPoint)
  : Settled Task :=
  let! banner := computeBanner opts entryPoint in
  let task :=
    await (esbuild_build (buildOptions opts entryPoint banner))
          (onBuilt opts) in
  Fulfilled task.

Fixpoint bundleLoop (opts : Opts) (eps : list IEntryPoint)
    (tasks : list Task) : Settled (list Task) :=
  match eps with
  | [] => Fulfilled tasks
  | entryPoint :: rest =>
      let! task := startTask opts entryPoint in
      bundleLoop opts rest (tasks ++ [task])
  end.

(** The order in which the started tasks settle: task [i] settles at time
    [clock i], ties in starting order. *)
Fixpoint insertBy (clock : nat -> nat) (i : nat) (l : list nat) : list nat :=
  match l with
  | [] => [i]
  | j :: l' =>
      if (clock j <=? clock i)%nat then j :: insertBy clock i l'
      else i :: l
  end.

Definition completionOrder (clock : nat -> nat) (n : nat) : list nat :=
  fold_left (fun order i => insertBy clock i order) (seq 0 n) [].

(** [await Promise.all(tasks)] over the shared [files] array: handlers run
    in completion order, the first rejection rejects the join. *)
Fixpoint settleInOrder (tasks : list Task) (order : list nat)
    (files : list VinylFile) : Settled (list VinylFile) :=
  match order with
  | [] => Fulfilled files
  | i :: rest =>
      match tasks !! i with
      | Some (Fulfilled pushed) => settleInOrder tasks rest (files ++ pushed)
      | Some (Rejected e) => Rejected e
      | None => settleInOrder tasks rest files
      end
  end.

(** What a task has pushed once it has settled. *)
Definition pushedOf (task : Task) : list VinylFile :=
  match task with
  | Fulfilled pushed => pushed
  | Rejected _ => []
  end.

Definition Promise_all (clock : nat -> nat) (tasks : list Task)
  : Settled (list VinylFile) :=
  settleInOrder tasks (completionOrder clock (length tasks)) [].

Definition bundleAsync (opts : Opts)
    (eps : list IEntryPoint) (clock : nat -> nat)
  : Settled (list VinylFile) :=
  let! tasks := bundleLoop opts eps [] in
  let! files := Promise_all clock tasks in
  Fulfilled files.

(** Streams. [es.merge] interleaves its sources: [sched] names the source
    that delivers next; what is left when it runs out is flushed in order. *)
Fixpoint popAt {A} (i : nat) (streams : list (list A))
  : option (A * list (list A)) :=
  match streams, i with
  | [], _ => None
  | [] :: _, O => None
  | (x :: s) :: rest, O => Some (x, s :: rest)
  | s :: rest, S i' =>
      match popAt i' rest with
      | Some (x, rest') => Some (x, s :: rest')
      | None => None
      end
  end.

Fixpoint es_merge {A} (sched : list nat) (streams : list (list A)) : list A :=
  match sched with
  | [] => concat streams
  | i :: sched' =>
      match popAt i streams with
      | Some (x, streams') => x :: es_merge sched' streams'
      | None => es_merge sched' streams
      end
  end.

(** [es.through()] without arguments forwards every chunk. *)
Definition es_through {A} (stream : list A) : list A := stream.

(** [a || b] on optional strings: the empty string is falsy. *)
Definition orElse (a : option jsstring) (b : jsstring) : jsstring :=
  match a with
  | Some ((_ :: _) as s) => s
  | _ => b
  end.

(** Lines 215-219: the last stage of the pipe. *)
Definition nlsStage (opts : Opts)
    (stream : list VinylFile) : list VinylFile :=
  match languages opts with
  | Some ((_ :: _) as langs) =>
      processNlsFiles
        {| nls_out := src opts;
           fileHeader := orElse (header opts) DEFAULT_FILE_HEADER;
           nls_languages := langs |}
        stream
  | _ => es_through stream
  end.

(** Lines 195-214: merge of bundles and resources, then the source maps. *)
Definition mergedWithMaps (opts : Opts)
    (sched : list nat) (files : list VinylFile) : list VinylFile :=
  let bundlesStream := files in
  let resourcesStream := gulp_src (resources opts) (Some (src opts)) in
  let result := es_merge sched [bundlesStream; resourcesStream] in
  flat_map (sourcemaps_write None) result.

(** optimizeESMTask: the files of the returned stream.  A rejected
    [bundleAsync] is not handled: nothing is ever written to the stream. *)
Definition optimizeESMTask (opts : Opts)
    (cjsOpts : option IOptimizeCommonJSTaskOpts)
    (clock : nat -> nat) (sched : list nat) : Settled (list VinylFile) :=
  let entryPoints := resolveEntryPoints opts cjsOpts in
  let! files := bundleAsync opts entryPoints clock in
  Fulfilled (nlsStage opts (mergedWithMaps opts sched files)).

(** The same pipeline with the localisation stage left out: the reference
    the spec compares against. *)
Definition optimizeESMTask_withoutNls (opts : Opts)
    (cjsOpts : option IOptimizeCommonJSTaskOpts)
    (clock : nat -> nat) (sched : list nat) : Settled (list VinylFile) :=
  let entryPoints := resolveEntryPoints opts cjsOpts in
  let! files := bundleAsync opts entryPoints clock in
  Fulfilled (mergedWithMaps opts sched files).

(** ** optimizeManualTask *)

(** gulp-concat (third party), as [concat(fileName)] uses it: no option is
    passed, so the separator is the plugin's default [newLine], a line feed.
    The joined file is a clone of the most recently modified input, renamed;
    without any input no file goes out.  The inputs are files with
    contents, and they carry no source map here. *)
Fixpoint bufferContents (files : list VinylFile)
    (latestFile : option VinylFile) (latestMod : option N)
    (parts : list Buffer) : option VinylFile * list Buffer :=
  match files with
  | [] => (latestFile, parts)
  | file :: rest =>
      let newer :=
        match latestMod with
        | None => true
        | Some m =>
            match stat_mtime file with
            | Some m' => m <? m'
            | None => false
            end
        end in
      if newer
      then bufferContents rest (Some file) (stat_mtime file)
             (parts ++ [Vinyl.contents file])
      else bufferContents rest latestFile latestMod
             (parts ++ [Vinyl.contents file])
  end.

Definition gulp_concat (fileName : jsstring) (newLine : option jsstring)
    (files : list VinylFile) : list VinylFile :=
  let separator :=
    Buffer_from (match newLine with Some s => s | None => LF end) in
  match bufferContents files None None [] with
  | (Some latestFile, parts) =>
      [ {| Vinyl.path := path_join [Vinyl.base latestFile; fileName];
           Vinyl.base := Vinyl.base latestFile;
           Vinyl.contents := join separator parts;
           Vinyl.sourceMap := Vinyl.sourceMap latestFile |} ]
  | (None, _) => []
  end.

(** Lines 253-261. *)
Definition concatenation (opt : IOptimizeManualTaskOpts) : list VinylFile :=
  gulp_concat (manual_out opt) None (gulp_src (manual_src opt) None).

Definition optimizeManualTask (options : list IOptimizeManualTaskOpts)
    (sched : list nat) : list VinylFile :=
  es_merge sched (List.map concatenation options).

(** ** minifyTask *)

Definition relative (f : VinylFile) : jsstring :=
  path_relative (Vinyl.base f) (Vinyl.path f).

(** [[^\x00-\xFF]] *)
Definition nonLatin1 (c : N) : bool := 255 <? c.

(** The message of line 326. *)
Definition nonAsciiMessage (found path : jsstring) : jsstring :=
  lit "Found non-ascii character " ++ found ++
  lit " in the minified output of " ++ path ++
  lit ". Non-ASCII characters in the output can cause performance problems when loading. Please review if you have introduced a regular expression that esbuild is not automatically converting and convert it to using unicode escape sequences.".

(** How a call of the mapper of [es.map] ends: with [cb(err)], with
    [cb(undefined, f)], or with an exception inside the [then] handler, in
    which case the callback is never invoked. *)
Inductive Callback :=
| CbError (e : JsError)
| CbData (f : VinylFile)
| CbNever (thrown : JsError).

(** The arguments the callback is invoked with, when it is: [cb(err)] passes
    the error alone, [cb(undefined, f)] the file alone. *)
Definition callbackArgs (c : Callback)
  : option (option JsError * option VinylFile) :=
  match c with
  | CbError e => Some (Some e, None)
  | CbData f => Some (None, Some f)
  | CbNever _ => None
  end.

Definition minifyOptions (f : VinylFile) : Esbuild.BuildOptions :=
  {| Esbuild.bundle := false;
     Esbuild.external := None;
     Esbuild.packages := None;
     Esbuild.platform := lit "node";
     Esbuild.format := None;
     Esbuild.sourcemap := lit "external";
     Esbuild.plugins := [];
     Esbuild.target := [lit "es2022"];
     Esbuild.loader := [];
     Esbuild.assetNames := None;
     Esbuild.banner := None;
     Esbuild.entryPoints := [Esbuild.EntryPath (Vinyl.path f)];
     Esbuild.outdir := lit ".";
     Esbuild.write := false;
     Esbuild.metafile_ := false;
     Esbuild.minify := true |}.

(** Lines 310-334.  The file record [f] is a mutable object: the result is
    its state after the call together with the way the call ended. *)
Definition minifyJs (f : VinylFile) : VinylFile * Callback :=
  match esbuild_build (minifyOptions f) with
  | Rejected e => (f, CbError e)
  | Fulfilled res =>
      let jsFile :=
        List.find (fun o => endsWith (lit ".js") (Esbuild.path o))
          (Esbuild.outputFiles res) in
      let sourceMapFile :=
        List.find (fun o => endsWith (lit ".js.map") (Esbuild.path o))
          (Esbuild.outputFiles res) in
      match jsFile with
      | None => (f, CbNever TypeError)
      | Some jsFile =>
          let contents := Esbuild.contents jsFile in
          let unicodeMatch := match_g nonLatin1 (Buffer_toString contents) in
          match unicodeMatch with
          | Some unicodeMatch =>
              (f, CbError
                    (Error (nonAsciiMessage (index0 unicodeMatch)
                              (Vinyl.path f))))
          | None =>
              let f1 :=
                {| Vinyl.path := Vinyl.path f; Vinyl.base := Vinyl.base f;
                   Vinyl.contents := contents;
                   Vinyl.sourceMap := Vinyl.sourceMap f |} in
              match sourceMapFile with
              | None => (f1, CbNever TypeError)
              | Some sourceMapFile =>
                  match JSON_parse (Esbuild.text sourceMapFile) with
                  | None => (f1, CbNever SyntaxError)
                  | Some parsed =>
                      let f2 :=
                        {| Vinyl.path := Vinyl.path f1;
                           Vinyl.base := Vinyl.base f1;
                           Vinyl.contents := Vinyl.contents f1;
                           Vinyl.sourceMap := Some parsed |} in
                      (f2, CbData f2)
                  end
              end
          end
      end
  end.

(** How the task ends: the final callback gets no error and the files
    below were written, or it gets [err], or a handler threw and the
    final callback is never invoked. *)
Inductive MinifyOutcome :=
| Done (written : list VinylFile)
| Failed (err : JsError)
| Stalled (thrown : JsError).

(** [gulp.dest(dir)]: the file is written below [dir] at its relative path. *)
Definition gulp_dest (dir : jsstring) (f : VinylFile) : VinylFile :=
  {| Vinyl.path := path_join [dir; relative f];
     Vinyl.base := dir;
     Vinyl.contents := Vinyl.contents f;
     Vinyl.sourceMap := Vinyl.sourceMap f |}.

(** Line 296. *)
Definition sourceMappingURL (sourceMapBaseUrl : option jsstring)
  : option (VinylFile -> jsstring) :=
  match sourceMapBaseUrl with
  | Some ((_ :: _) as url) =>
      Some (fun f => url ++ lit "/" ++ relative f ++ lit ".map")
  | _ => None
  end.

(** The three filtered stages of one file between [gulp.src] and
    [sourcemaps.write]. *)
Definition jsStage (f : VinylFile) : VinylFile * Callback :=
  if minimatch (lit "**/*.js") f then minifyJs (sourcemaps_init f)
  else (f, CbData f).

Definition filtered (pattern : jsstring)
    (plugin : VinylFile -> Settled VinylFile) (f : VinylFile)
  : Settled VinylFile :=
  if minimatch pattern f then plugin f else Fulfilled f.

(** What becomes of one source file in the pipe: it reaches [gulp.dest],
    which writes the files given, or one of the streams emits an error for
    it, or the handler of its build throws and nothing more is heard of it. *)
Inductive FileOutcome :=
| Written (files : list VinylFile)
| Errs (e : JsError)
| Hangs (thrown : JsError).

Definition pipeFile (src : jsstring) (sourceMapBaseUrl : option jsstring)
    (f : VinylFile) : FileOutcome :=
  match snd (jsStage f) with
  | CbError e => Errs e
  | CbNever e => Hangs e
  | CbData f =>
      match filtered (lit "**/*.css") gulpPostcss f with
      | Rejected e => Errs e
      | Fulfilled f =>
          match filtered (lit "**/*.svg") svgmin f with
          | Rejected e => Errs e
          | Fulfilled f =>
              Written
                (List.map (gulp_dest (src ++ lit "-min"))
                   (sourcemaps_write (sourceMappingURL sourceMapBaseUrl) f))
          end
      end
  end.

Definition errorOf (o : FileOutcome) : option JsError :=
  match o with Errs e => Some e | _ => None end.

Definition thrownOf (o : FileOutcome) : option JsError :=
  match o with Hangs e => Some e | _ => None end.

Definition writtenOf (o : FileOutcome) : list VinylFile :=
  match o with Written files => files | _ => [] end.

(** The first event of one kind, going through the files in the order in
    which they settle. *)
Fixpoint firstEvent (pick : FileOutcome -> option JsError)
    (outcomes : list FileOutcome) (order : list nat) : option JsError :=
  match order with
  | [] => None
  | i :: rest =>
      match outcomes !! i with
      | Some o =>
          match pick o with
          | Some e => Some e
          | None => firstEvent pick outcomes rest
          end
      | None => firstEvent pick outcomes rest
      end
  end.


(** Lines 306-349.  The mapper of [es.map] returns at once, so the builds
    of all the files run side by side: file [i] settles at time [clock i],
    ties in source order.  [pump] ends the task with the first error a
    stream emits.  An exception in the handler of a build is no stream
    event: it keeps the task from completing, but not a later error from
    ending it.  With neither, every file is written, in source order, and
    the final callback gets no error. *)
Definition minifyTask (src : jsstring) (sourceMapBaseUrl : option jsstring)
    (clock : nat -> nat) : MinifyOutcome :=
  let files :=
    gulp_src [src ++ lit "/**"; lit "!" ++ src ++ lit "/**/*.map"] None in
  let outcomes := List.map (pipeFile src sourceMapBaseUrl) files in
  let order := completionOrder clock (length outcomes) in
  match firstEvent errorOf outcomes order with
  | Some e => Failed e
  | None =>
      match firstEvent thrownOf outcomes order with
      | Some e => Stalled e
      | None => Done (concat (List.map writtenOf outcomes))
      end
  end.

(** ** optimizeTask *)

Record IOptimizeTaskOpts := {
  out : jsstring;
  amd : Opts;
  commonJS : option IOptimizeCommonJSTaskOpts;
  manual : option (list IOptimizeManualTaskOpts)
}.

(** Lines 282-293: the optimisers are merged and piped to [gulp.dest].
    [schedManual] and [schedAll] are the interleavings of the two merges.
    A rejected bundle stage is not handled, as in optimizeESMTask. *)
Definition optimizeTask (opts : IOptimizeTaskOpts) (clock : nat -> nat)
    (sched schedManual schedAll : list nat) : Settled (list VinylFile) :=
  let! esm := optimizeESMTask (amd opts) (commonJS opts) clock sched in
  let optimizers :=
    [esm] ++
    match manual opts with
    | Some groups => [optimizeManualTask groups schedManual]
    | None => []
    end in
  Fulfilled (List.map (gulp_dest (out opts)) (es_merge schedAll optimizers)).

End Optimize.
Arguments Task : clear implicits.
Arguments FileOutcome : clear implicits.

(** ** The terminal history contribution *)

Module TerminalHistory.

(** TerminalCapability (declared in platform/terminal): the two members the
    contribution switches on, and the others. *)
Inductive TerminalCapability :=
| CwdDetection
| CommandDetection
| OtherCapability (id : N).

(** What the contribution reads from its surroundings when an event fires:
    whether [capabilities.get] finds the capability, whether the history
    service hands out a history, and the instance's properties. *)
Record Env := {
  capabilityPresent : bool;
  historyAvailable : bool;
  shellType : option jsstring;
  remoteAuthority : option jsstring
}.

Inductive Event :=
| DidAddCapabilityType (e : TerminalCapability)
| CommandFinished (command : jsstring)
| DidChangeCwd (cwd : jsstring).

(** The listeners the contribution has registered so far and the calls of
    [add] it has made on the two histories, oldest first. *)
Record State := {
  commandListeners : nat;
  cwdListeners : nat;
  commandHistory : list (jsstring * option jsstring);
  directoryHistory : list (jsstring * option jsstring)
}.

Definition initial : State :=
  {| commandListeners := 0; cwdListeners := 0;
     commandHistory := []; directoryHistory := [] |}.

(** Lines 57-61: the listener on onCommandFinished. *)
Definition onCommandFinished (env : Env) (command : jsstring)
    (history : list (jsstring * option jsstring))
  : list (jsstring * option jsstring) :=
  if (0 <? length (trim command))%nat then
    if historyAvailable env then history ++ [(command, shellType env)]
    else history
  else history.

(** Lines 51-53: the listener on onDidChangeCwd. *)
Definition onDidChangeCwd (env : Env) (cwd : jsstring)
    (history : list (jsstring * option jsstring))
  : list (jsstring * option jsstring) :=
  if historyAvailable env then history ++ [(cwd, remoteAuthority env)]
  else history.

(** Every registered listener runs once per event. *)
Fixpoint fire {A} (n : nat) (listener : A -> A) (a : A) : A :=
  match n with
  | O => a
  | S n' => fire n' listener (listener a)
  end.

(** Lines 48-65. *)
Definition step (st : State) (ev : Env * Event) : State :=
  let (env, event) := ev in
  match event with
  | DidAddCapabilityType CwdDetection =>
      if capabilityPresent env
      then {| commandListeners := commandListeners st;
              cwdListeners := S (cwdListeners st);
              commandHistory := commandHistory st;
              directoryHistory := directoryHistory st |}
      else st
  | DidAddCapabilityType CommandDetection =>
      if capabilityPresent env
      then {| commandListeners := S (commandListeners st);
              cwdListeners := cwdListeners st;
              commandHistory := commandHistory st;
              directoryHistory := directoryHistory st |}
      else st
  | DidAddCapabilityType (OtherCapability _) => st
  | CommandFinished command =>
      {| commandListeners := commandListeners st;
         cwdListeners := cwdListeners st;
         commandHistory :=
           fire (commandListeners st) (onCommandFinished env command)
             (commandHistory st);
         directoryHistory := directoryHistory st |}
  | DidChangeCwd cwd =>
      {| commandListeners := commandListeners st;
         cwdListeners := cwdListeners st;
         commandHistory := commandHistory st;
         directoryHistory :=
           fire (cwdListeners st) (onDidChangeCwd env cwd)
             (directoryHistory st) |}
  end.

Definition run (events : list (Env * Event)) (st : State) : State :=
  fold_left step events st.

(** A recorded command that is not blank. *)
Definition notBlank (entry : jsstring * option jsstring) : Prop :=
  (0 < length (trim (fst entry)))%nat ∧
  ¬ Forall (fun c => isWhiteSpace c = true) (fst entry).

End TerminalHistory.

(** ** A concrete host, for running the model on examples *)

Module Sample.

(** UTF-8, as [Buffer.from(string)] and [buffer.toString()] apply it
    (well-formed input; anything else decodes to U+FFFD). *)
Definition cont (b : N) : bool := (128 <=? b) && (b <? 192).

Fixpoint utf8_decode (b : Buffer) : jsstring :=
  match b with
  | [] => []
  | b0 :: r0 =>
      if b0 <? 128 then b0 :: utf8_decode r0
      else
        match r0 with
        | [] => [65533]
        | b1 :: r1 =>
            if (192 <=? b0) && (b0 <? 224) && cont b1
            then ((b0 - 192) * 64 + (b1 - 128)) :: utf8_decode r1
            else
              match r1 with
              | [] => 65533 :: utf8_decode r0
              | b2 :: r2 =>
                  if (224 <=? b0) && (b0 <? 240) && cont b1 && cont b2
                  then ((b0 - 224) * 4096 + (b1 - 128) * 64 + (b2 - 128))
                       :: utf8_decode r2
                  else
                    match r2 with
                    | [] => 65533 :: utf8_decode r0
                    | b3 :: r3 =>
                        if (240 <=? b0) && (b0 <? 248) &&
                           cont b1 && cont b2 && cont b3
                        then
                          let cp := (b0 - 240) * 262144 + (b1 - 128) * 4096 +
                                    (b2 - 128) * 64 + (b3 - 128) in
                          (55296 + (cp - 65536) / 1024)
                          :: (56320 + (cp - 65536) mod 1024)
                          :: utf8_decode r3
                        else 65533 :: utf8_decode r0
                    end
              end
        end
  end.

Fixpoint utf8_encode (s : jsstring) : Buffer :=
  match s with
  | [] => []
  | c :: r =>
      if c <? 128 then c :: utf8_encode r
      else if c <? 2048
      then (192 + c / 64) :: (128 + c mod 64) :: utf8_encode r
      else if (55296 <=? c) && (c <? 56320) then
        match r with
        | [] => [239; 191; 189]
        | d :: r' =>
            if (56320 <=? d) && (d <? 57344) then
              let cp := 65536 + (c - 55296) * 1024 + (d - 56320) in
              (240 + cp / 262144) :: (128 + (cp / 4096) mod 64)
              :: (128 + (cp / 64) mod 64) :: (128 + cp mod 64)
              :: utf8_encode r'
            else 239 :: 191 :: 189 :: utf8_encode r
        end
      else if (56320 <=? c) && (c <? 57344)
      then 239 :: 191 :: 189 :: utf8_encode r
      else (224 + c / 4096) :: (128 + (c / 64) mod 64) :: (128 + c mod 64)
           :: utf8_encode r
  end.

(** Lookup in a table keyed by strings. *)
Fixpoint lookup {V} (k : jsstring) (table : list (jsstring * V)) : option V :=
  match table with
  | [] => None
  | (k', v) :: rest => if eqb k k' then Some v else lookup k rest
  end.

(** The path a build is asked for. *)
Definition entryPath (o : Esbuild.BuildOptions) : jsstring :=
  match Esbuild.entryPoints o with
  | Esbuild.EntryPath p :: _ => p
  | Esbuild.EntryInOut p _ :: _ => p
  | [] => []
  end.

(** A host over an in-memory file system [disk], a table [builds] of what
    the bundler answers per entry path, and the files [tree] a glob list
    resolves to.  Parsed JSON is kept as its text; a text parses when it
    starts with a brace. *)
Definition host (disk : list (jsstring * jsstring))
    (builds : list (jsstring * Esbuild.BuildResult))
    (tree : list (Vinyl.File jsstring)) : Host jsstring unit :=
  {| JSON_parse := fun s => if startsWith (lit "{") s then Some s else None;
     Buffer_from := utf8_encode;
     Buffer_toString := utf8_decode;
     readFile := fun p =>
       match lookup p disk with
       | Some c => Fulfilled c
       | None => Rejected (Error (lit "ENOENT: " ++ p))
       end;
     path_join := join (lit "/");
     path_parse_name := fun p => p;
     path_relative := fun base p =>
       if startsWith (base ++ lit "/") p
       then List.skipn (length base + 1) p else p;
     REPO_ROOT_PATH := lit "/repo";
     tslibPath := lit "/repo/node_modules/tslib/tslib.es6.js";
     removeAllTSBoilerplate := fun s => s;
     esbuild_build := fun o =>
       match lookup (entryPath o) builds with
       | Some r => Fulfilled r
       | None => Rejected (Error (lit "Build failed: " ++ entryPath o))
       end;
     gulp_src := fun _ _ => tree;
     stat_mtime := fun _ => None;
     minimatch := fun pattern f =>
       endsWith (List.skipn 4 pattern) (Vinyl.path f);
     sourcemaps_init := fun f => f;
     sourcemaps_write := fun _ f => [f];
     gulpPostcss := fun f => Fulfilled f;
     svgmin := fun f => Fulfilled f;
     processNlsFiles := fun _ stream => stream ++ stream |}.


(** *** Sample data *)

Definition vinyl (path contents : string) : Vinyl.File jsstring :=
  {| Vinyl.path := lit path;
     Vinyl.base := lit "/repo/out";
     Vinyl.contents := utf8_encode (lit contents);
     Vinyl.sourceMap := None |}.

Definition output (path : string) (text : jsstring) : Esbuild.OutputFile :=
  {| Esbuild.path := lit path;
     Esbuild.contents := utf8_encode text;
     Esbuild.text := text |}.

(** A bundle: two entry points, the second of which does not build. *)
Definition disk : list (jsstring * jsstring) :=
  [ (lit "/repo/node_modules/tslib/tslib.es6.js", lit "T;");
    (lit "/repo/out/vs/p.js", lit "X;") ].

Definition entryA : IEntryPoint :=
  {| name := lit "vs/a";
     include := Some [lit "vs/b"];
     exclude := Some [lit "vs/css"];
     prepend := Some [ {| IFile.path := lit "vs/p.js" |} ];
     dest := None |}.

Definition entryBroken : IEntryPoint :=
  {| name := lit "vs/broken"; include := None; exclude := None;
     prepend := None; dest := None |}.

Definition resA : Esbuild.BuildResult :=
  {| Esbuild.outputFiles :=
       [ output "/repo/out/vs/a.js" (lit "code;");
         output "/repo/out/vs/a.js.map" (lit "{}") ];
     Esbuild.metafile :=
       {| Esbuild.inputs :=
            [ (lit "out/vs/a.js", {| Esbuild.bytes := 3 |});
              (lit "out/vs/b.js", {| Esbuild.bytes := 2 |}) ] |} |}.

Definition mapper (text path : jsstring) : jsstring :=
  text ++ lit "//" ++ path.

Definition opts : IOptimizeAMDTaskOpts unit :=
  {| src := lit "out";
     entryPoints := [entryA];
     resources := [];
     header := None;
     languages := None;
     fileContentMapper := Some mapper |}.

Definition bundleHost : Host jsstring unit :=
  host disk [ (lit "/repo/out/vs/a.js", resA) ] [].

(** What the handler makes of [resA]. *)
Definition filesA : list (Vinyl.File jsstring) :=
  [ {| Vinyl.path := lit "/repo/out/vs/a.js";
       Vinyl.base := lit "/repo/out";
       Vinyl.contents :=
         utf8_encode (lit "code;//out/vs/a.js//out/vs/b.js");
       Vinyl.sourceMap := Some (lit "{}") |};
    {| Vinyl.path := lit "/repo/out/vs/a.js.map";
       Vinyl.base := lit "/repo/out";
       Vinyl.contents := utf8_encode (lit "{}");
       Vinyl.sourceMap := None |} ].

(** A minify run: [uni.js] minifies to a text holding U+65E5. *)
Definition cleanFile : Vinyl.File jsstring := vinyl "/repo/out/clean.js" "a = 1;".
Definition uniFile : Vinyl.File jsstring := vinyl "/repo/out/uni.js" "s = 'x';".

Definition uniText : jsstring := lit "s='" ++ [26085] ++ lit "';".

Definition resClean : Esbuild.BuildResult :=
  {| Esbuild.outputFiles :=
       [ output "clean.js" (lit "a=1;"); output "clean.js.map" (lit "{}") ];
     Esbuild.metafile := {| Esbuild.inputs := [] |} |}.

Definition resUni : Esbuild.BuildResult :=
  {| Esbuild.outputFiles :=
       [ output "uni.js" uniText; output "uni.js.map" (lit "{}") ];
     Esbuild.metafile := {| Esbuild.inputs := [] |} |}.

Definition minBuilds : list (jsstring * Esbuild.BuildResult) :=
  [ (lit "/repo/out/clean.js", resClean); (lit "/repo/out/uni.js", resUni) ].

Definition cleanHost : Host jsstring unit := host [] minBuilds [cleanFile].
Definition uniHost : Host jsstring unit :=
  host [] minBuilds [cleanFile; uniFile].

(** A manual concatenation of two files. *)
Definition manualHost : Host jsstring unit :=
  host [] [] [ vinyl "/repo/out/a.js" "A"; vinyl "/repo/out/b.js" "B" ].

Definition manualOpt : IOptimizeManualTaskOpts :=
  {| manual_src := [lit "a.js"; lit "b.js"]; manual_out := lit "c.js" |}.

(** A terminal session. *)
Definition env : TerminalHistory.Env :=
  {| TerminalHistory.capabilityPresent := true;
     TerminalHistory.historyAvailable := true;
     TerminalHistory.shellType := Some (lit "bash");
     TerminalHistory.remoteAuthority := None |}.

Definition session : list (TerminalHistory.Env * TerminalHistory.Event) :=
  [ (env, TerminalHistory.DidAddCapabilityType TerminalHistory.CommandDetection);
    (env, TerminalHistory.CommandFinished (lit "ls -la"));
    (env, TerminalHistory.CommandFinished (lit "   "));
    (env, TerminalHistory.CommandFinished (9 :: lit " make ")) ].

(** *** More sample data *)

(** A build whose source map is not JSON. *)
Definition resBadMap : Esbuild.BuildResult :=
  {| Esbuild.outputFiles :=
       [ output "/repo/out/vs/a.js" (lit "code;");
         output "/repo/out/vs/a.js.map" (lit "oops") ];
     Esbuild.metafile := {| Esbuild.inputs := [] |} |}.

(** An entry point that prepends a file that is not on the disk. *)
Definition entryMissing : IEntryPoint :=
  {| name := lit "vs/m"; include := None; exclude := None;
     prepend := Some [ {| IFile.path := lit "vs/missing.js" |} ];
     dest := Some (lit "vs/m.min.js") |}.

(** Two bundles of the same sources under different names. *)
Definition entryB : IEntryPoint :=
  {| name := lit "vs/b"; include := None; exclude := None;
     prepend := None; dest := None |}.

Definition resB : Esbuild.BuildResult :=
  {| Esbuild.outputFiles := [ output "/repo/out/vs/b.css" (lit "b{}") ];
     Esbuild.metafile := {| Esbuild.inputs := [] |} |}.

Definition filesB : list (Vinyl.File jsstring) :=
  [ {| Vinyl.path := lit "/repo/out/vs/b.css";
       Vinyl.base := lit "/repo/out";
       Vinyl.contents := utf8_encode (lit "b{}");
       Vinyl.sourceMap := None |} ].

Definition twoHost : Host jsstring unit :=
  host disk
    [ (lit "/repo/out/vs/a.js", resA); (lit "/repo/out/vs/b.js", resB) ]
    [ vinyl "/repo/out/a.js" "A"; vinyl "/repo/out/b.js" "B" ].

Definition taskOpts : IOptimizeTaskOpts :=
  {| out := lit "/repo/dist";
     amd := opts;
     commonJS := None;
     manual := Some [manualOpt] |}.

(** Minify runs that do not complete. *)
Definition nomapFile : Vinyl.File jsstring := vinyl "/repo/out/nomap.js" "n = 1;".
Definition brokenFile : Vinyl.File jsstring := vinyl "/repo/out/broken.js" "(".

Definition textFile : Vinyl.File jsstring := vinyl "/repo/out/notes.txt" "notes".

Definition resNoMap : Esbuild.BuildResult :=
  {| Esbuild.outputFiles := [ output "nomap.js" (lit "n=1;") ];
     Esbuild.metafile := {| Esbuild.inputs := [] |} |}.

Definition moreBuilds : list (jsstring * Esbuild.BuildResult) :=
  (lit "/repo/out/nomap.js", resNoMap) :: minBuilds.

Definition nomapHost : Host jsstring unit := host [] moreBuilds [nomapFile].
Definition brokenHost : Host jsstring unit :=
  host [] moreBuilds [cleanFile; brokenFile].
Definition textHost : Host jsstring unit :=
  host [] moreBuilds [textFile; cleanFile].

(** *** A bundler that shows its banner *)

(** A build whose only output is the js banner it was given followed by
    the bundle's code, as the bundler prepends banners. *)
Definition echoBuild (o : Esbuild.BuildOptions)
  : Settled Esbuild.BuildResult :=
  let text :=
    match Esbuild.banner o with
    | Some b => Esbuild.js b
    | None => []
    end ++ lit "code;" in
  Fulfilled
    {| Esbuild.outputFiles :=
         [ {| Esbuild.path := entryPath o;
              Esbuild.contents := utf8_encode text;
              Esbuild.text := text |} ];
       Esbuild.metafile := {| Esbuild.inputs := [] |} |}.

Definition echoHost : Host jsstring unit :=
  let h := host disk [] [] in
  {| JSON_parse := @JSON_parse _ _ h;
     Buffer_from := @Buffer_from _ _ h;
     Buffer_toString := @Buffer_toString _ _ h;
     readFile := @readFile _ _ h;
     path_join := @path_join _ _ h;
     path_parse_name := @path_parse_name _ _ h;
     path_relative := @path_relative _ _ h;
     REPO_ROOT_PATH := @REPO_ROOT_PATH _ _ h;
     tslibPath := @tslibPath _ _ h;
     removeAllTSBoilerplate := @removeAllTSBoilerplate _ _ h;
     esbuild_build := echoBuild;
     gulp_src := @gulp_src _ _ h;
     stat_mtime := @stat_mtime _ _ h;
     minimatch := @minimatch _ _ h;
     sourcemaps_init := @sourcemaps_init _ _ h;
     sourcemaps_write := @sourcemaps_write _ _ h;
     gulpPostcss := @gulpPostcss _ _ h;
     svgmin := @svgmin _ _ h;
     processNlsFiles := @processNlsFiles _ _ h |}.

(** Two minify runs in which more than one file fails. *)
Definition raceHost : Host jsstring unit :=
  host [] moreBuilds [brokenFile; uniFile].
Definition hangHost : Host jsstring unit :=
  host [] moreBuilds [nomapFile; uniFile].

End Sample.

(** ** Provenance of history entries *)

Section HistoryEntries.

Import TerminalHistory.

(** An entry that one of the events of a session would record. *)
Definition commandOf (events : list (Env * Event))
    (entry : jsstring * option jsstring) : Prop :=
  exists env command,
    (env, CommandFinished command) ∈ events ∧
    historyAvailable env = true ∧
    entry = (command, shellType env).

Definition cwdOf (events : list (Env * Event))
    (entry : jsstring * option jsstring) : Prop :=
  exists env cwd,
    (env, DidChangeCwd cwd) ∈ events ∧
    historyAvailable env = true ∧
    entry = (cwd, remoteAuthority env).

End HistoryEntries.

(** * Properties *)

(** ** MentionedModuleSet *)

Section MentionedFacts.

Lemma elem_of_forEach_add (l : option (list jsstring)) (s : gset jsstring)
    (m : jsstring) :
  m ∈ forEach_add l s ↔ m ∈ s ∨ m ∈ default [] l.
Proof.
  destruct l as [xs|]; simpl.
  - revert s. induction xs as [|x xs IH]; intros s; simpl.
    + rewrite elem_of_nil. tauto.
    + rewrite IH, elem_of_union, elem_of_singleton, elem_of_cons. tauto.
  - rewrite elem_of_nil. tauto.
Qed.

Lemma elem_of_added (eps : list IEntryPoint) (s : gset jsstring)
    (m : jsstring) :
  m ∈ fold_left
        (fun s entryPoint =>
           forEach_add (exclude entryPoint)
             (forEach_add (include entryPoint)
                ({[ name entryPoint ]} ∪ s)))
        eps s
  ↔ m ∈ s ∨ ∃ ep, ep ∈ eps ∧ mentions ep m.
Proof.
  revert s. induction eps as [|e eps IH]; intros s; simpl.
  - split; [auto|]. intros [H|(ep & H & _)]; [done|]. by apply elem_of_nil in H.
  - rewrite IH, !elem_of_forEach_add. unfold mentions. split.
    + intros [[[H|H]|H]|(ep & Hin & H)].
      * apply elem_of_union in H as [H|H].
        -- apply elem_of_singleton in H. right. exists e.
           split; [left|]. by left.
        -- by left.
      * right. exists e. split; [left|]. auto.
      * right. exists e. split; [left|]. auto.
      * right. exists ep. split; [by right|done].
    + intros [H|(ep & Hin & H)].
      * left. left. left. apply elem_of_union. by right.
      * apply elem_of_cons in Hin as [->|Hin].
        -- left. destruct H as [->|[H|H]]; [|auto..].
           left. left. apply elem_of_union. left. by apply elem_of_singleton.
        -- right. eauto.
Qed.

(** C5. A module id belongs to the mentioned-module set exactly when it is
    not ['vs/css'] and is the name of an entry point or occurs in the
    include or exclude list of one. *)
Theorem allMentionedModules_spec (eps : list IEntryPoint) (m : jsstring) :
  m ∈ allMentionedModules eps
  ↔ m ≠ lit "vs/css" ∧ ∃ ep, ep ∈ eps ∧ mentions ep m.
Proof.
  unfold allMentionedModules.
  rewrite elem_of_difference, elem_of_added, elem_of_singleton.
  split.
  - intros [[H|H] Hne]; [by apply elem_of_empty in H|done].
  - intros [Hne H]. auto.
Qed.

End MentionedFacts.

(** ** JavaScript strings *)

Section StringFacts.

Lemma eqb_eq (a b : jsstring) : eqb a b = true ↔ a = b.
Proof.
  revert b. induction a as [|x a IH]; intros [|y b]; simpl; try easy.
  rewrite andb_true_iff, N.eqb_eq, IH. split.
  - intros [-> ->]. reflexivity.
  - intros [= -> ->]. auto.
Qed.

Lemma eqb_refl (a : jsstring) : eqb a a = true.
Proof. by apply eqb_eq. Qed.

Lemma eqb_neq (a b : jsstring) : eqb a b = false ↔ a ≠ b.
Proof.
  rewrite <- eqb_eq. destruct (eqb a b); split; congruence.
Qed.


(** [match_g]: the runs of a character class. *)
Lemma scanRuns_nil (cls : N -> bool) (s cur : jsstring) :
  scanRuns cls s cur = [] <-> cur = [] ∧ Forall (fun c => cls c = false) s.
Proof.
  revert cur. induction s as [|c s IH]; intros cur; simpl.
  - destruct cur; split; try easy.
  - destruct (cls c) eqn:Hc.
    + rewrite IH. split.
      * intros [H _]. by destruct cur.
      * intros [_ H]. inversion H; subst. congruence.
    + destruct cur as [|x cur].
      * rewrite IH. split.
        -- intros [_ H]. split; [done|]. by constructor.
        -- intros [_ H]. inversion H; subst. done.
      * split; [discriminate|]. intros [? _]. discriminate.
Qed.

Lemma match_g_None (cls : N -> bool) (s : jsstring) :
  match_g cls s = None <-> Forall (fun c => cls c = false) s.
Proof.
  unfold match_g. destruct (scanRuns cls s []) as [|r rest] eqn:H.
  - apply scanRuns_nil in H as [_ H]. done.
  - split; [discriminate|]. intros Hall.
    assert (scanRuns cls s [] = []) by (by apply scanRuns_nil). congruence.
Qed.

Lemma scanRuns_open (cls : N -> bool) (s cur : jsstring) :
  cur ≠ [] ->
  exists run post rest,
    s = run ++ post ∧ Forall (fun c => cls c = true) run ∧
    runEnds cls post ∧ scanRuns cls s cur = (cur ++ run) :: rest.
Proof.
  revert cur. induction s as [|c s IH]; intros cur Hcur; simpl.
  - destruct cur as [|x cur]; [done|]. exists [], [], [].
    split_and!; [done|apply List.Forall_nil|done|by rewrite app_nil_r].
  - destruct (cls c) eqn:Hc.
    + destruct (IH (cur ++ [c])) as (run & post & rest & -> & Hrun & Hpost & ->).
      { by destruct cur. }
      exists (c :: run), post, rest.
      split_and!; [done|by constructor|done|by rewrite <- app_assoc].
    + destruct cur as [|x cur]; [done|].
      exists [], (c :: s), (scanRuns cls s []).
      split_and!; [done|apply List.Forall_nil|done|by rewrite app_nil_r].
Qed.

Lemma scanRuns_first (cls : N -> bool) (s : jsstring) :
  Exists (fun c => cls c = true) s ->
  exists pre run post rest,
    s = pre ++ run ++ post ∧ Forall (fun c => cls c = false) pre ∧
    run ≠ [] ∧ Forall (fun c => cls c = true) run ∧ runEnds cls post ∧
    scanRuns cls s [] = run :: rest.
Proof.
  induction s as [|c s IH]; intros Hex; [by inversion Hex|]. simpl.
  destruct (cls c) eqn:Hc.
  - destruct (scanRuns_open cls s [c])
      as (run & post & rest & -> & Hrun & Hpost & ->); [done|].
    exists [], (c :: run), post, rest.
    split_and!; [done|apply List.Forall_nil|done|by constructor|done|done].
  - destruct IH as (pre & run & post & rest & -> & Hpre & Hne & Hrun & Hpost & ->).
    { inversion Hex; subst; [congruence|done]. }
    exists (c :: pre), run, post, rest.
    split_and!; [done|by constructor|done..].
Qed.

Lemma match_g_first (cls : N -> bool) (s : jsstring) :
  Exists (fun c => cls c = true) s ->
  exists pre run post rest,
    s = pre ++ run ++ post ∧ Forall (fun c => cls c = false) pre ∧
    run ≠ [] ∧ Forall (fun c => cls c = true) run ∧ runEnds cls post ∧
    match_g cls s = Some (run :: rest).
Proof.
  intros H.
  destruct (scanRuns_first cls s H)
    as (pre & run & post & rest & Hs & Hpre & Hne & Hrun & Hpost & Hscan).
  exists pre, run, post, rest. unfold match_g. rewrite Hscan.
  by split_and!.
Qed.

End StringFacts.

(** ** The bundle stage *)

Section OptimizeFacts.

Context `{host : Host JSON Language}.

Abbreviation VinylFile := (Vinyl.File JSON).
Abbreviation Opts := (IOptimizeAMDTaskOpts Language).

Lemma mapInputs_fold_left (mapper : jsstring -> jsstring -> jsstring)
    (inputs : list jsstring) (text : jsstring) :
  mapInputs mapper text inputs = fold_left mapper inputs text.
Proof.
  revert text. induction inputs as [|input rest IH]; intros text; simpl; auto.
Qed.

Lemma toVinyl_path (opts : Opts) (res : Esbuild.BuildResult)
    (file : Esbuild.OutputFile) (v : VinylFile) :
  toVinyl opts res file = Fulfilled v -> Vinyl.path v = Esbuild.path file.
Proof.
  unfold toVinyl.
  destruct (endsWith _ _);
    repeat match goal with
           | |- context [match ?x with _ => _ end] => destruct x
           end; intros [= <-]; reflexivity.
Qed.

Lemma toVinyl_mapped (opts : Opts) (res : Esbuild.BuildResult)
    (file : Esbuild.OutputFile) (v : VinylFile)
    (mapper : jsstring -> jsstring -> jsstring) :
  fileContentMapper opts = Some mapper ->
  endsWith (lit ".js") (Esbuild.path file) = true ->
  toVinyl opts res file = Fulfilled v ->
  Vinyl.contents v =
    Buffer_from
      (fold_left mapper
         (Esbuild.Object_keys (Esbuild.inputs (Esbuild.metafile res)))
         (Esbuild.text file)).
Proof.
  intros Hm Hjs. unfold toVinyl. rewrite Hjs, Hm, mapInputs_fold_left.
  repeat match goal with
         | |- context [match ?x with _ => _ end] => destruct x
         end; intros [= <-]; reflexivity.
Qed.

Lemma pushFiles_Fulfilled (opts : Opts) (res : Esbuild.BuildResult)
    (outputFiles : list Esbuild.OutputFile) (files : list VinylFile) :
  pushFiles opts res outputFiles = Fulfilled files ->
  Forall2 (fun file v => toVinyl opts res file = Fulfilled v)
    outputFiles files.
Proof.
  revert files. induction outputFiles as [|file rest IH]; intros files; simpl.
  - intros [= <-]. constructor.
  - destruct (toVinyl opts res file) as [v|e] eqn:Hv; simpl; [|discriminate].
    destruct (pushFiles opts res rest) as [vs|e]; simpl; [|discriminate].
    intros [= <-]. constructor; auto.
Qed.

(** C1. With a fileContentMapper, every bundled .js output file ends up with
    the contents obtained by folding the mapper from the left over the keys
    of the manifest's inputs, starting from the bundled text: each call
    receives the text accumulated so far and the next input path. *)
Theorem fileContentMapper_is_fold (opts : Opts) (res : Esbuild.BuildResult)
    (mapper : jsstring -> jsstring -> jsstring) (files : list VinylFile) :
  fileContentMapper opts = Some mapper ->
  onBuilt opts res = Fulfilled files ->
  Forall2
    (fun (file : Esbuild.OutputFile) (v : VinylFile) =>
       Vinyl.path v = Esbuild.path file ∧
       (endsWith (lit ".js") (Esbuild.path file) = true ->
        Vinyl.contents v =
          Buffer_from
            (fold_left mapper
               (Esbuild.Object_keys (Esbuild.inputs (Esbuild.metafile res)))
               (Esbuild.text file))))
    (Esbuild.outputFiles res) files.
Proof.
  intros Hm Hb. apply pushFiles_Fulfilled in Hb.
  induction Hb as [|file v rest vs Hv _ IH]; constructor; auto.
  split; [eapply toVinyl_path; eauto|].
  intros Hjs. eapply toVinyl_mapped; eauto.
Qed.


(** The handler fulfils as soon as every output file's text parses. *)
Lemma onBuilt_total (opts : Opts) (res : Esbuild.BuildResult) :
  (forall m, is_Some (JSON_parse (Esbuild.text m))) ->
  exists files, onBuilt opts res = Fulfilled files.
Proof.
  intros Hp. unfold onBuilt.
  induction (Esbuild.outputFiles res) as [|file rest [vs IH]]; simpl; eauto.
  assert (exists v, toVinyl opts res file = Fulfilled v) as [v ->].
  { unfold toVinyl. destruct (endsWith _ _); [|eauto].
    destruct (List.find _ _) as [m|]; [|destruct (fileContentMapper opts); eauto].
    destruct (Hp m) as [j ->]. destruct (fileContentMapper opts); eauto. }
  rewrite IH. simpl. eauto.
Qed.

(** *** Banner *)

Lemma prependLoop_reads (opts : Opts) (items : list IFile.t)
    (sources : list jsstring) (banner : Esbuild.Banner) :
  Forall2 (fun item source => readFile (prependPath opts item) = Fulfilled source)
    items sources ->
  prependLoop opts items banner =
    Fulfilled
      {| Esbuild.js :=
           Esbuild.js banner ++ concat (List.map (fun s => s ++ LF) sources);
         Esbuild.css := Esbuild.css banner |}.
Proof.
  intros H. revert banner.
  induction H as [|item source items sources Hr _ IH]; intros banner; simpl.
  - rewrite app_nil_r. by destruct banner.
  - unfold prependPath in Hr. rewrite Hr. simpl. rewrite IH. simpl.
    by rewrite <- !app_assoc.
Qed.

(** C3 (amended). When the reads succeed, the build of an entry point is
    started with options whose banner has, as its js part, the copyright
    header, then the tslib source, then every prepend file's contents in
    declared order, each followed by a line feed, and as its css part the
    header alone; except for ['vs/workbench/workbench.web.main'], whose
    build is started without a banner. *)
Theorem banner_composition (opts : Opts) (entryPoint : IEntryPoint)
    (tslib : jsstring) (sources : list jsstring) :
  readFile tslibPath = Fulfilled tslib ->
  Forall2 (fun item source => readFile (prependPath opts item) = Fulfilled source)
    (default [] (prepend entryPoint)) sources ->
  let banner :=
    {| Esbuild.js :=
         DEFAULT_FILE_HEADER ++ tslib ++
         concat (List.map (fun source => source ++ LF) sources);
       Esbuild.css := DEFAULT_FILE_HEADER |} in
  let options := buildOptions opts entryPoint banner in
  computeBanner opts entryPoint = Fulfilled banner ∧
  startTask opts entryPoint
    = Fulfilled (await (esbuild_build options) (onBuilt opts)) ∧
  (name entryPoint ≠ lit "vs/workbench/workbench.web.main" ->
   Esbuild.banner options = Some banner) ∧
  (name entryPoint = lit "vs/workbench/workbench.web.main" ->
   Esbuild.banner options = None).
Proof.
  intros Ht Hs banner options.
  assert (computeBanner opts entryPoint = Fulfilled banner) as Hb.
  { unfold computeBanner. rewrite Ht. cbn [await].
    destruct (prepend entryPoint) as [[|item items]|]; simpl in Hs.
    - inversion Hs; subst. subst banner. simpl. by rewrite !app_nil_r.
    - rewrite (prependLoop_reads _ _ _ _ Hs). subst banner.
      cbn [Esbuild.js Esbuild.css]. by rewrite <- app_assoc.
    - inversion Hs; subst. subst banner. simpl. by rewrite !app_nil_r. }
  split; [exact Hb|]. split; [|split].
  - unfold startTask. rewrite Hb. reflexivity.
  - intros Hne. simpl. apply eqb_neq in Hne. by rewrite Hne.
  - intros He. simpl. rewrite He. by rewrite eqb_refl.
Qed.

(** *** The join over the entry points *)

Lemma insertBy_perm (clock : nat -> nat) (i : nat) (l : list nat) :
  insertBy clock i l ≡ₚ i :: l.
Proof.
  induction l as [|j l IH]; simpl; [done|].
  destruct (_ <=? _)%nat; [|done].
  rewrite IH. apply Permutation_swap.
Qed.

Lemma completionOrder_perm (clock : nat -> nat) (n : nat) :
  completionOrder clock n ≡ₚ seq 0 n.
Proof.
  unfold completionOrder.
  assert (forall l acc,
             fold_left (fun order i => insertBy clock i order) l acc
             ≡ₚ acc ++ l) as H.
  { induction l as [|i l IH]; intros acc; simpl.
    - by rewrite app_nil_r.
    - rewrite IH, insertBy_perm. simpl. apply Permutation_middle. }
  by rewrite H.
Qed.

Lemma concat_perm {A} (l l' : list (list A)) :
  l ≡ₚ l' -> concat l ≡ₚ concat l'.
Proof.
  induction 1 as [|x l l' _ IH|x y l|l l' l'' _ IH1 _ IH2]; simpl.
  - done.
  - by apply Permutation_app_head.
  - rewrite !app_assoc. apply Permutation_app_tail, Permutation_app_comm.
  - by rewrite IH1.
Qed.

Lemma settleInOrder_Fulfilled (tasks : list (Task JSON)) (order : list nat)
    (files result : list VinylFile) :
  settleInOrder tasks order files = Fulfilled result ->
  (forall i task, i ∈ order -> tasks !! i = Some task ->
                  isFulfilled task = true) ∧
  result =
    files ++ concat (List.map (fun i => pushedOf (default (Fulfilled []) (tasks !! i))) order).
Proof.
  revert files. induction order as [|i order IH]; intros files; simpl.
  - intros [= <-]. split; [|by rewrite app_nil_r].
    intros i task Hi. by apply elem_of_nil in Hi.
  - destruct (tasks !! i) as [[pushed|e]|] eqn:Hi; [..|discriminate|];
      intros H; apply IH in H as [Hall ->]; simpl.
    + split; [|by rewrite app_assoc].
      intros j task Hj Ht. apply elem_of_cons in Hj as [->|Hj]; [|eauto].
      rewrite Hi in Ht. by injection Ht as <-.
    + split; [|done].
      intros j task Hj Ht. apply elem_of_cons in Hj as [->|Hj]; [|eauto].
      congruence.
Qed.

Lemma settleInOrder_all (tasks : list (Task JSON)) (order : list nat)
    (files : list VinylFile) :
  Forall (fun task => isFulfilled task = true) tasks ->
  exists result, settleInOrder tasks order files = Fulfilled result.
Proof.
  intros Hall. revert files.
  induction order as [|i order IH]; intros files; simpl; [eauto|].
  destruct (tasks !! i) as [[pushed|e]|] eqn:Hi; [eauto| |eauto].
  rewrite Forall_lookup in Hall. by apply Hall in Hi.
Qed.

Lemma pushed_by_index (tasks : list (Task JSON)) :
  List.map (fun i => pushedOf (default (Fulfilled []) (tasks !! i)))
    (seq 0 (length tasks))
  = List.map pushedOf tasks.
Proof.
  induction tasks as [|task tasks IH] using rev_ind; [done|].
  rewrite length_app. simpl. rewrite Nat.add_1_r, seq_S. simpl.
  rewrite !List.map_app. simpl. f_equal.
  - rewrite <- IH. apply List.map_ext_in. intros i Hi.
    apply in_seq in Hi. destruct Hi as [_ Hi].
    rewrite lookup_app_l; [done|exact Hi].
  - by rewrite list_lookup_middle.
Qed.

Lemma Promise_all_Fulfilled (clock : nat -> nat) (tasks : list (Task JSON))
    (files : list VinylFile) :
  Promise_all clock tasks = Fulfilled files ->
  Forall (fun task => isFulfilled task = true) tasks ∧
  files ≡ₚ concat (List.map pushedOf tasks).
Proof.
  unfold Promise_all. intros H.
  apply settleInOrder_Fulfilled in H as [Hall ->]. split.
  - apply Forall_lookup. intros i task Hi. apply (Hall i); [|done].
    rewrite (completionOrder_perm clock (length tasks)).
    apply list_elem_of_In, in_seq. apply lookup_lt_Some in Hi.
    split; [apply Nat.le_0_l|exact Hi].
  - simpl. rewrite <- pushed_by_index.
    apply concat_perm, Permutation_map, completionOrder_perm.
Qed.

Lemma bundleLoop_Fulfilled (opts : Opts) (eps : list IEntryPoint)
    (tasks tasks' : list (Task JSON)) :
  bundleLoop opts eps tasks = Fulfilled tasks' <->
  exists started,
    Forall2 (fun ep task => startTask opts ep = Fulfilled task) eps started ∧
    tasks' = tasks ++ started.
Proof.
  revert tasks. induction eps as [|ep eps IH]; intros tasks; simpl.
  - split.
    + intros [= <-]. exists []. split; [constructor|by rewrite app_nil_r].
    + intros (started & H & ->). inversion H; subst. by rewrite app_nil_r.
  - destruct (startTask opts ep) as [task|e] eqn:Hs; simpl.
    + rewrite IH. split.
      * intros (started & H & ->). exists (task :: started).
        split; [by constructor|]. by rewrite <- app_assoc.
      * intros (started & H & ->). inversion H as [|? t ? started' Ht H']; subst.
        exists started'. split; [done|].
        rewrite Hs in Ht. injection Ht as <-. by rewrite <- app_assoc.
    + split; [discriminate|].
      intros (started & H & _). inversion H; subst. congruence.
Qed.

(** C4. The bundle stage is all or nothing.  When bundleAsync returns a file
    list, every entry point's task was started and fulfilled, and the list
    holds exactly the files those tasks pushed; an entry point whose task is
    not fulfilled makes bundleAsync reject, whatever the completion order;
    and when every task is fulfilled the file list is returned. *)
Theorem bundleAsync_all_or_nothing (opts : Opts) (eps : list IEntryPoint)
    (clock : nat -> nat) :
  (forall files,
      bundleAsync opts eps clock = Fulfilled files ->
      exists pushed : list (list VinylFile),
        Forall2 (fun ep p => startTask opts ep = Fulfilled (Fulfilled p))
          eps pushed ∧
        files ≡ₚ concat pushed) ∧
  (forall ep,
      ep ∈ eps ->
      (forall p, startTask opts ep ≠ Fulfilled (Fulfilled p)) ->
      exists e, bundleAsync opts eps clock = Rejected e) ∧
  (forall pushed : list (list VinylFile),
      Forall2 (fun ep p => startTask opts ep = Fulfilled (Fulfilled p))
        eps pushed ->
      exists files, bundleAsync opts eps clock = Fulfilled files).
Proof.
  assert (forall files,
      bundleAsync opts eps clock = Fulfilled files ->
      exists pushed : list (list VinylFile),
        Forall2 (fun ep p => startTask opts ep = Fulfilled (Fulfilled p))
          eps pushed ∧
        files ≡ₚ concat pushed) as Honly.
  { intros files. unfold bundleAsync.
    destruct (bundleLoop opts eps []) as [tasks|e] eqn:Hloop; [|discriminate].
    simpl. destruct (Promise_all clock tasks) as [fs|e] eqn:Hall;
      [|discriminate].
    simpl. intros [= <-].
    apply bundleLoop_Fulfilled in Hloop as (started & Hst & ->). simpl in Hall.
    apply Promise_all_Fulfilled in Hall as [Hok Hperm].
    exists (List.map pushedOf started). split; [|done].
    clear Hperm. induction Hst as [|ep task eps' started' Ht _ IH]; simpl;
      [constructor|].
    inversion Hok as [|? ? Hf Hok']; subst.
    constructor; [|auto].
    destruct task; [done|discriminate]. }
  split; [exact Honly|]. split.
  - intros ep Hin Hbad.
    destruct (bundleAsync opts eps clock) as [files|e] eqn:Hb; [|eauto].
    destruct (Honly files eq_refl) as (pushed & Hst & _).
    exfalso. clear Hb Honly.
    induction Hst as [|ep' p eps' pushed' Hp _ IH].
    + by apply elem_of_nil in Hin.
    + apply elem_of_cons in Hin as [->|Hin]; [|auto].
      by apply (Hbad p).
  - intros pushed Hst. unfold bundleAsync.
    assert (bundleLoop opts eps [] =
            Fulfilled (List.map Fulfilled pushed)) as ->.
    { apply bundleLoop_Fulfilled. exists (List.map Fulfilled pushed).
      split; [|done].
      clear Honly. induction Hst; simpl; constructor; auto. }
    cbn [await]. unfold Promise_all.
    match goal with
    | |- context [settleInOrder ?t ?o ?f] =>
        destruct (settleInOrder_all t o f) as [result ->]; [|simpl; eauto]
    end.
    apply Forall_forall. intros task Ht.
    apply list_elem_of_In, in_map_iff in Ht as (p & <- & _).
    reflexivity.
Qed.

(** *** The localisation stage *)

(** C6. With an absent or empty language list, the stream returned by
    optimizeESMTask is the one the pipeline yields with the localisation
    stage left out. *)
Theorem nls_stage_skipped (opts : Opts)
    (cjsOpts : option IOptimizeCommonJSTaskOpts)
    (clock : nat -> nat) (sched : list nat) :
  languages opts = None ∨ languages opts = Some [] ->
  optimizeESMTask opts cjsOpts clock sched =
  optimizeESMTask_withoutNls opts cjsOpts clock sched.
Proof.
  intros Hl. unfold optimizeESMTask, optimizeESMTask_withoutNls, nlsStage.
  destruct Hl as [-> | ->]; reflexivity.
Qed.

End OptimizeFacts.

(** ** Manual concatenation and minification *)

Section TaskFacts.

Context `{host : Host JSON Language}.

Abbreviation VinylFile := (Vinyl.File JSON).

(** *** optimizeManualTask *)



(** *** minifyTask *)

Lemma nonLatin1_true (c : N) : nonLatin1 c = true <-> 255 < c.
Proof. unfold nonLatin1. apply N.ltb_lt. Qed.


(** An error never comes with a change of the file record. *)
Lemma minifyJs_error (f : VinylFile) (e : JsError) :
  snd (minifyJs f) = CbError e -> fst (minifyJs f) = f.
Proof.
  unfold minifyJs.
  repeat match goal with
         | |- context [match ?x with _ => _ end] => destruct x
         end; simpl; congruence.
Qed.

Lemma pipeFile_Written (src : jsstring) (url : option jsstring)
    (f : VinylFile) (ws : list VinylFile) :
  pipeFile src url f = Written ws <->
  exists f1 f2 f3,
    snd (jsStage f) = CbData f1 ∧
    filtered (lit "**/*.css") gulpPostcss f1 = Fulfilled f2 ∧
    filtered (lit "**/*.svg") svgmin f2 = Fulfilled f3 ∧
    ws = List.map (gulp_dest (src ++ lit "-min"))
           (sourcemaps_write (sourceMappingURL url) f3).
Proof.
  unfold pipeFile. split.
  - destruct (snd (jsStage f)) as [e|f1|e] eqn:H1; try discriminate.
    destruct (filtered _ gulpPostcss f1) as [f2|e] eqn:H2; try discriminate.
    destruct (filtered _ svgmin f2) as [f3|e] eqn:H3; try discriminate.
    intros [= <-]. exists f1, f2, f3. by split_and!.
  - intros (f1 & f2 & f3 & -> & -> & -> & ->). reflexivity.
Qed.

Lemma pipeFile_Errs (src : jsstring) (url : option jsstring)
    (f : VinylFile) (e : JsError) :
  pipeFile src url f = Errs e <->
  snd (jsStage f) = CbError e ∨
  exists f1,
    snd (jsStage f) = CbData f1 ∧
    (filtered (lit "**/*.css") gulpPostcss f1 = Rejected e ∨
     exists f2,
       filtered (lit "**/*.css") gulpPostcss f1 = Fulfilled f2 ∧
       filtered (lit "**/*.svg") svgmin f2 = Rejected e).
Proof.
  unfold pipeFile. split.
  - destruct (snd (jsStage f)) as [e'|f1|e'] eqn:H1; try discriminate.
    + intros [= ->]. by left.
    + right. exists f1. split; [done|].
      destruct (filtered _ gulpPostcss f1) as [f2|e'] eqn:H2.
      * right. exists f2. split; [done|].
        destruct (filtered _ svgmin f2) eqn:H3; [discriminate|congruence].
      * left. congruence.
  - intros [->|(f1 & -> & [->|(f2 & -> & ->)])]; reflexivity.
Qed.


Lemma lookup_map {A B} (g : A -> B) (l : list A) (i : nat) :
  List.map g l !! i = g <$> l !! i.
Proof.
  revert i. induction l as [|x l IH]; intros [|i]; simpl; auto.
Qed.

(** The first event in completion order. *)
Lemma firstEvent_None (pick : FileOutcome JSON -> option JsError)
    (outcomes : list (FileOutcome JSON)) (order : list nat) :
  firstEvent pick outcomes order = None <->
  forall i o, i ∈ order -> outcomes !! i = Some o -> pick o = None.
Proof.
  induction order as [|i order IH]; simpl.
  - split; [|done]. intros _ i o Hi. by apply elem_of_nil in Hi.
  - destruct (outcomes !! i) as [o|] eqn:Hi.
    + destruct (pick o) as [e|] eqn:Hp.
      * split; [discriminate|]. intros H.
        rewrite (H i o) in Hp; [discriminate|by left|done].
      * rewrite IH. split.
        -- intros H j o' Hj Ho. apply elem_of_cons in Hj as [->|Hj]; [|eauto].
           congruence.
        -- intros H j o' Hj. apply H. by right.
    + rewrite IH. split.
      * intros H j o' Hj Ho. apply elem_of_cons in Hj as [->|Hj]; [|eauto].
        congruence.
      * intros H j o' Hj. apply H. by right.
Qed.

Lemma firstEvent_Some (pick : FileOutcome JSON -> option JsError)
    (outcomes : list (FileOutcome JSON)) (order : list nat) (e : JsError) :
  firstEvent pick outcomes order = Some e ->
  exists i o, i ∈ order ∧ outcomes !! i = Some o ∧ pick o = Some e.
Proof.
  induction order as [|i order IH]; simpl; [discriminate|].
  destruct (outcomes !! i) as [o|] eqn:Hi.
  - destruct (pick o) as [e'|] eqn:Hp.
    + intros [= ->]. exists i, o. split; [by left|done].
    + intros H. destruct (IH H) as (j & o' & Hj & Ho). exists j, o'.
      split; [by right|done].
  - intros H. destruct (IH H) as (j & o' & Hj & Ho). exists j, o'.
    split; [by right|done].
Qed.

Lemma firstEvent_nowhere (pick : FileOutcome JSON -> option JsError)
    (outcomes : list (FileOutcome JSON)) (clock : nat -> nat) :
  firstEvent pick outcomes (completionOrder clock (length outcomes)) = None
  <-> Forall (fun o => pick o = None) outcomes.
Proof.
  rewrite firstEvent_None, Forall_lookup. split.
  - intros H i o Hi. apply (H i o); [|done].
    rewrite (completionOrder_perm clock (length outcomes)).
    apply list_elem_of_In, in_seq. apply lookup_lt_Some in Hi.
    split; [apply Nat.le_0_l|exact Hi].
  - intros H i o _ Hi. by apply (H i).
Qed.




(** How the task ends. *)
Lemma minifyTask_Done_iff (src : jsstring) (url : option jsstring)
    (clock : nat -> nat) (w : list VinylFile) :
  minifyTask src url clock = Done w <->
  exists written,
    Forall2 (fun f ws => pipeFile src url f = Written ws)
      (gulp_src [src ++ lit "/**"; lit "!" ++ src ++ lit "/**/*.map"] None)
      written ∧
    w = concat written.
Proof.
  unfold minifyTask.
  set (files := gulp_src _ _).
  assert (forall l : list VinylFile,
            Forall (fun o => errorOf o = None) (List.map (pipeFile src url) l) ->
            Forall (fun o => thrownOf o = None) (List.map (pipeFile src url) l) ->
            Forall2 (fun f ws => pipeFile src url f = Written ws) l
              (List.map writtenOf (List.map (pipeFile src url) l))) as Hall.
  { induction l as [|f l IH]; simpl; intros He Ht; constructor.
    - inversion He as [|? ? He1 _]; inversion Ht as [|? ? Ht1 _]; subst.
      by destruct (pipeFile src url f).
    - inversion He; inversion Ht; subst. auto. }
  assert (forall (l : list VinylFile) written,
            Forall2 (fun f ws => pipeFile src url f = Written ws) l written ->
            List.map (pipeFile src url) l = List.map Written written) as Hmap.
  { induction 1 as [|f ws l written Hf _ IH]; simpl; [done|].
    by rewrite Hf, IH. }
  split.
  - destruct (firstEvent errorOf _ _) eqn:He; [discriminate|].
    destruct (firstEvent thrownOf _ _) eqn:Ht; [discriminate|].
    intros [= <-]. apply firstEvent_nowhere in He, Ht.
    eexists. split; [by apply Hall|done].
  - intros (written & Hw & ->). rewrite (Hmap _ _ Hw).
    assert (firstEvent errorOf (List.map Written written)
              (completionOrder clock (length (List.map Written written)))
            = None) as ->.
    { apply firstEvent_nowhere, Forall_forall. intros o Ho.
      apply list_elem_of_In, in_map_iff in Ho as (ws & <- & _). done. }
    assert (firstEvent thrownOf (List.map Written written)
              (completionOrder clock (length (List.map Written written)))
            = None) as ->.
    { apply firstEvent_nowhere, Forall_forall. intros o Ho.
      apply list_elem_of_In, in_map_iff in Ho as (ws & <- & _). done. }
    f_equal. f_equal. rewrite List.map_map. simpl. by rewrite List.map_id.
Qed.


Lemma minifyTask_Done_file (src : jsstring) (url : option jsstring)
    (clock : nat -> nat) (w : list VinylFile) (f : VinylFile) :
  minifyTask src url clock = Done w ->
  f ∈ gulp_src [src ++ lit "/**"; lit "!" ++ src ++ lit "/**/*.map"] None ->
  exists f1 f2 f3,
    snd (jsStage f) = CbData f1 ∧
    filtered (lit "**/*.css") gulpPostcss f1 = Fulfilled f2 ∧
    filtered (lit "**/*.svg") svgmin f2 = Fulfilled f3 ∧
    forall g, g ∈ sourcemaps_write (sourceMappingURL url) f3 ->
              gulp_dest (src ++ lit "-min") g ∈ w.
Proof.
  intros Hd Hin. apply minifyTask_Done_iff in Hd as (written & Hw & ->).
  induction Hw as [|f' ws l written Hf _ IH]; [by apply elem_of_nil in Hin|].
  apply elem_of_cons in Hin as [->|Hin].
  - apply pipeFile_Written in Hf as (f1 & f2 & f3 & H1 & H2 & H3 & ->).
    exists f1, f2, f3. split_and!; try done.
    intros g Hg. simpl. apply elem_of_app. left.
    apply list_elem_of_In, in_map, list_elem_of_In, Hg.
  - destruct (IH Hin) as (f1 & f2 & f3 & H1 & H2 & H3 & Hg).
    exists f1, f2, f3. split_and!; try done.
    intros g Hgin. simpl. apply elem_of_app. right. auto.
Qed.

Lemma minifyTask_Failed_file (src : jsstring) (url : option jsstring)
    (clock : nat -> nat) (e : JsError) :
  minifyTask src url clock = Failed e ->
  exists f,
    f ∈ gulp_src [src ++ lit "/**"; lit "!" ++ src ++ lit "/**/*.map"] None ∧
    pipeFile src url f = Errs e.
Proof.
  unfold minifyTask.
  destruct (firstEvent errorOf _ _) as [e'|] eqn:He.
  - intros [= ->]. apply firstEvent_Some in He as (i & o & _ & Hi & Ho).
    rewrite lookup_map in Hi.
    destruct (gulp_src _ _ !! i) as [f|] eqn:Hf; [|discriminate].
    injection Hi as <-.
    exists f. split; [by eapply list_elem_of_lookup_2|].
    destruct (pipeFile src url f); simpl in Ho; congruence.
  - destruct (firstEvent thrownOf _ _); discriminate.
Qed.




(** C9 (amended). When the check for characters above U+00FF fails, the
    callback is invoked with the error alone, no file record is passed to it,
    and the file record is left as it was: its contents and its sourceMap are
    the ones it had before minification. *)
Theorem minifyJs_rejects_unmodified (f : VinylFile)
    (res : Esbuild.BuildResult) (jsFile : Esbuild.OutputFile) :
  esbuild_build (minifyOptions f) = Fulfilled res ->
  List.find (fun o => endsWith (lit ".js") (Esbuild.path o))
    (Esbuild.outputFiles res) = Some jsFile ->
  Exists (fun c => 255 < c) (Buffer_toString (Esbuild.contents jsFile)) ->
  (exists e,
      snd (minifyJs f) = CbError e ∧
      callbackArgs (snd (minifyJs f)) = Some (Some e, None)) ∧
  fst (minifyJs f) = f ∧
  Vinyl.contents (fst (minifyJs f)) = Vinyl.contents f ∧
  Vinyl.sourceMap (fst (minifyJs f)) = Vinyl.sourceMap f.
Proof.
  intros Hbuild Hfind Hex.
  destruct (match_g_first nonLatin1 (Buffer_toString (Esbuild.contents jsFile)))
    as (pre & run & post & rest & _ & _ & _ & _ & _ & Hm).
  { eapply Exists_impl; [exact Hex|]. intros c. apply nonLatin1_true. }
  assert (snd (minifyJs f) =
          CbError (Error (nonAsciiMessage run (Vinyl.path f)))) as He.
  { unfold minifyJs. rewrite Hbuild, Hfind, Hm. reflexivity. }
  pose proof (minifyJs_error f _ He) as Hf.
  rewrite Hf. split_and!; try done.
  eexists. split; [exact He|]. by rewrite He.
Qed.

End TaskFacts.

(** ** The terminal history contribution *)

Section HistoryFacts.

Import TerminalHistory.

Lemma trimStart_nil (s : jsstring) :
  trimStart s = [] <-> Forall (fun c => isWhiteSpace c = true) s.
Proof.
  induction s as [|c s IH]; simpl.
  - split; [constructor|done].
  - destruct (isWhiteSpace c) eqn:Hc.
    + rewrite IH. split.
      * intros H. by constructor.
      * intros H. by inversion H.
    + split; [discriminate|]. intros H. inversion H; congruence.
Qed.

Lemma trimStart_head (s r : jsstring) (c : N) :
  trimStart s = c :: r -> isWhiteSpace c = false.
Proof.
  induction s as [|d s IH]; simpl; [discriminate|].
  destruct (isWhiteSpace d) eqn:Hd; [exact IH|].
  intros [= -> _]. exact Hd.
Qed.

Lemma trim_nil (s : jsstring) :
  trim s = [] <-> Forall (fun c => isWhiteSpace c = true) s.
Proof.
  unfold trim, trimEnd. split.
  - intros H. apply trimStart_nil.
    destruct (trimStart s) as [|c r] eqn:Ht; [done|]. exfalso.
    apply (f_equal (@rev N)) in H. rewrite rev_involutive in H. simpl in H.
    apply trimStart_nil in H.
    apply trimStart_head in Ht.
    rewrite Forall_forall in H.
    assert (isWhiteSpace c = true) as Hc.
    { apply H. apply list_elem_of_In. apply in_or_app. right. by left. }
    congruence.
  - intros H. apply trimStart_nil in H. rewrite H. reflexivity.
Qed.

Lemma trim_length_pos (s : jsstring) :
  (0 < length (trim s))%nat <-> ¬ Forall (fun c => isWhiteSpace c = true) s.
Proof.
  rewrite <- trim_nil. destruct (trim s); simpl; split; try easy; try lia.
Qed.

Lemma onCommandFinished_notBlank (env : Env) (command : jsstring)
    (history : list (jsstring * option jsstring)) :
  Forall notBlank history ->
  Forall notBlank (onCommandFinished env command history).
Proof.
  intros H. unfold onCommandFinished.
  destruct (0 <? length (trim command))%nat eqn:Hlen; [|done].
  destruct (historyAvailable env); [|done].
  apply Forall_app. split; [done|]. constructor; [|constructor].
  apply Nat.ltb_lt in Hlen. split; [exact Hlen|].
  by apply trim_length_pos.
Qed.

Lemma fire_invariant {A} (P : A -> Prop) (listener : A -> A) (n : nat) (a : A) :
  (forall x, P x -> P (listener x)) -> P a -> P (fire n listener a).
Proof.
  intros Hl. revert a. induction n as [|n IH]; intros a Ha; simpl; auto.
Qed.

Lemma fire_fixed {A} (listener : A -> A) (n : nat) (a : A) :
  listener a = a -> fire n listener a = a.
Proof.
  intros H. induction n as [|n IH]; simpl; [done|]. by rewrite H.
Qed.

Lemma step_notBlank (st : State) (ev : Env * Event) :
  Forall notBlank (commandHistory st) ->
  Forall notBlank (commandHistory (step st ev)).
Proof.
  intros H. destruct ev as [env [[| |id]|command|cwd]]; simpl; try done.
  - by destruct (capabilityPresent env).
  - by destruct (capabilityPresent env).
  - apply fire_invariant; [|done].
    intros history. apply onCommandFinished_notBlank.
Qed.

Lemma run_notBlank (events : list (Env * Event)) (st : State) :
  Forall notBlank (commandHistory st) ->
  Forall notBlank (commandHistory (run events st)).
Proof.
  revert st. induction events as [|ev events IH]; intros st H; simpl; [done|].
  apply IH. by apply step_notBlank.
Qed.

(** C10. Whatever events the contribution receives, every command it has
    added to the command history has a non-empty trim, that is, holds a
    character that is not white space; a finished command made of white
    space only leaves the history as it was. *)
Theorem history_commands_not_blank :
  (forall events : list (Env * Event),
      Forall notBlank (commandHistory (run events initial))) ∧
  (forall (st : State) (env : Env) (command : jsstring),
      Forall (fun c => isWhiteSpace c = true) command ->
      commandHistory (step st (env, CommandFinished command))
      = commandHistory st).
Proof.
  split.
  - intros events. apply run_notBlank. constructor.
  - intros st env command Hws. simpl. apply fire_fixed.
    unfold onCommandFinished. apply trim_nil in Hws. by rewrite Hws.
Qed.

End HistoryFacts.

(** ** The model at work on the sample data *)

Section Runs.

Import Sample.

Example allMentionedModules_sample :
  allMentionedModules [entryA; entryBroken]
  = {[ lit "vs/a"; lit "vs/b"; lit "vs/broken" ]}.
Proof. by vm_compute. Qed.

Example onBuilt_sample :
  onBuilt (host := bundleHost) opts resA = Fulfilled filesA.
Proof. reflexivity. Qed.

Example replaceExtension_sample :
  replaceExtension (lit "vs/code/main.min.js") = lit "vs/code/main.min" ∧
  replaceExtension (lit "vs.code/main") = lit "vs.code/main".
Proof. split; reflexivity. Qed.

Example minifyTask_clean :
  minifyTask (host := cleanHost) (lit "/repo/out") None (fun _ => 0%nat)
  = Done [ {| Vinyl.path := lit "/repo/out-min/clean.js";
              Vinyl.base := lit "/repo/out-min";
              Vinyl.contents := utf8_encode (lit "a=1;");
              Vinyl.sourceMap := Some (lit "{}") |} ].
Proof. reflexivity. Qed.

Example minifyTask_unicode :
  minifyTask (host := uniHost) (lit "/repo/out") None (fun _ => 0%nat)
  = Failed (Error (nonAsciiMessage [26085] (lit "/repo/out/uni.js"))).
Proof. reflexivity. Qed.

(** Of two failing files, the one whose build settles first decides. *)
Example minifyTask_race :
  minifyTask (host := raceHost) (lit "/repo/out") None (fun i => i)
  = Failed (Error (lit "Build failed: /repo/out/broken.js")) ∧
  minifyTask (host := raceHost) (lit "/repo/out") None (fun i => (1 - i)%nat)
  = Failed (Error (nonAsciiMessage [26085] (lit "/repo/out/uni.js"))).
Proof. split; reflexivity. Qed.

(** A handler that throws does not hide the error of another file, but
    alone it keeps the task from ending. *)
Example minifyTask_hang :
  minifyTask (host := hangHost) (lit "/repo/out") None (fun i => i)
  = Failed (Error (nonAsciiMessage [26085] (lit "/repo/out/uni.js"))) ∧
  minifyTask (host := nomapHost) (lit "/repo/out") None (fun i => i)
  = Stalled TypeError.
Proof. split; reflexivity. Qed.

Example concatenation_sample :
  List.map Vinyl.contents (concatenation (host := manualHost) manualOpt)
  = [ utf8_encode (lit "A" ++ LF ++ lit "B") ].
Proof. reflexivity. Qed.

Example session_history :
  TerminalHistory.commandHistory
    (TerminalHistory.run session TerminalHistory.initial)
  = [ (lit "ls -la", Some (lit "bash"));
      (9 :: lit " make ", Some (lit "bash")) ].
Proof. reflexivity. Qed.

End Runs.

(** ** Instances of the theorems on the sample data *)

Section Instances.

Import Sample.

Lemma fileContentMapper_is_fold_witness :
  fileContentMapper opts = Some mapper ∧
  onBuilt (host := bundleHost) opts resA = Fulfilled filesA ∧
  Forall2
    (fun (file : Esbuild.OutputFile) (v : Vinyl.File jsstring) =>
       Vinyl.path v = Esbuild.path file ∧
       (endsWith (lit ".js") (Esbuild.path file) = true ->
        Vinyl.contents v =
          utf8_encode
            (fold_left mapper [lit "out/vs/a.js"; lit "out/vs/b.js"]
               (Esbuild.text file))))
    (Esbuild.outputFiles resA) filesA.
Proof.
  split; [reflexivity|]. split; [reflexivity|].
  apply (fileContentMapper_is_fold (host := bundleHost) opts resA mapper filesA);
    reflexivity.
Defined.

Lemma banner_composition_witness :
  let banner :=
    {| Esbuild.js := DEFAULT_FILE_HEADER ++ lit "T;" ++ lit "X;" ++ LF;
       Esbuild.css := DEFAULT_FILE_HEADER |} in
  computeBanner (host := echoHost) opts entryA = Fulfilled banner ∧
  startTask (host := echoHost) opts entryA
  = Fulfilled
      (await (echoBuild (buildOptions (host := echoHost) opts entryA banner))
         (onBuilt (host := echoHost) opts)) ∧
  Esbuild.banner (buildOptions (host := echoHost) opts entryA banner)
  = Some banner.
Proof.
  destruct (banner_composition (host := echoHost) opts entryA
              (lit "T;") [lit "X;"]) as (Hb & Hs & Hn & _).
  - reflexivity.
  - constructor; [reflexivity|constructor].
  - split; [exact Hb|]. split; [exact Hs|]. apply Hn. discriminate.
Defined.

(** What the bundler is handed is not the plain succession of header, tslib
    and prepend contents: a line feed follows each prepend file.  The sample
    bundler puts the js banner it receives in front of the code. *)
Lemma banner_verbatim_counterexample :
  exists banner pushed,
    startTask (host := echoHost) opts entryA
    = Fulfilled
        (await (echoBuild (buildOptions (host := echoHost) opts entryA banner))
           (onBuilt (host := echoHost) opts)) ∧
    Esbuild.banner (buildOptions (host := echoHost) opts entryA banner)
    = Some banner ∧
    startTask (host := echoHost) opts entryA = Fulfilled (Fulfilled pushed) ∧
    List.map Vinyl.contents pushed
    = [ utf8_encode
          (DEFAULT_FILE_HEADER ++ lit "T;" ++ lit "X;" ++ LF ++ lit "code;") ] ∧
    Esbuild.js banner ≠ DEFAULT_FILE_HEADER ++ lit "T;" ++ concat [lit "X;"].
Proof.
  exists {| Esbuild.js := DEFAULT_FILE_HEADER ++ lit "T;" ++ lit "X;" ++ LF;
            Esbuild.css := DEFAULT_FILE_HEADER |}.
  eexists. split; [vm_compute; reflexivity|]. split; [reflexivity|].
  split; [vm_compute; reflexivity|]. split; [vm_compute; reflexivity|].
  intros H. apply (f_equal length) in H. vm_compute in H. discriminate H.
Qed.

Lemma bundleAsync_all_or_nothing_witness :
  (exists e,
      bundleAsync (host := bundleHost) opts [entryA; entryBroken] (fun _ => 0%nat)
      = Rejected e) ∧
  (exists files,
      bundleAsync (host := bundleHost) opts [entryA] (fun _ => 0%nat)
      = Fulfilled files).
Proof.
  split.
  - apply (proj1 (proj2 (bundleAsync_all_or_nothing (host := bundleHost)
                           opts [entryA; entryBroken] (fun _ => 0%nat)))
             entryBroken).
    + right. left.
    + intros p H. vm_compute in H. discriminate H.
  - apply (proj2 (proj2 (bundleAsync_all_or_nothing (host := bundleHost)
                           opts [entryA] (fun _ => 0%nat)))
             [filesA]).
    constructor; [reflexivity|constructor].
Defined.

Lemma nls_stage_skipped_witness :
  optimizeESMTask (host := bundleHost) opts None (fun _ => 0%nat) []
  = optimizeESMTask_withoutNls (host := bundleHost) opts None (fun _ => 0%nat) [].
Proof.
  apply (nls_stage_skipped (host := bundleHost) opts None (fun _ => 0%nat) []).
  left. reflexivity.
Defined.





Lemma minifyJs_rejects_unmodified_witness :
  (exists e,
      callbackArgs (snd (minifyJs (host := uniHost) uniFile))
      = Some (Some e, None)) ∧
  fst (minifyJs (host := uniHost) uniFile) = uniFile ∧
  Vinyl.contents (fst (minifyJs (host := uniHost) uniFile))
    = utf8_encode (lit "s = 'x';").
Proof.
  destruct (minifyJs_rejects_unmodified (host := uniHost) uniFile resUni
              (output "uni.js" uniText) eq_refl eq_refl)
    as ((e & _ & Ha) & Hf & Hc & _).
  { right. right. right. left. vm_compute. reflexivity. }
  split; [by exists e|]. split; [exact Hf|exact Hc].
Defined.

(** The error callback does not get the file record: it is invoked with the
    error as its only argument. *)
Lemma error_callback_counterexample :
  callbackArgs (snd (minifyJs (host := uniHost) uniFile))
  = Some (Some (Error (nonAsciiMessage [26085] (lit "/repo/out/uni.js"))),
          None) ∧
  ¬ (exists err,
        callbackArgs (snd (minifyJs (host := uniHost) uniFile))
        = Some (err, Some uniFile)).
Proof.
  split; [vm_compute; reflexivity|].
  intros (err & H). vm_compute in H. discriminate H.
Qed.

Lemma history_commands_not_blank_witness :
  Forall TerminalHistory.notBlank
    (TerminalHistory.commandHistory
       (TerminalHistory.run session TerminalHistory.initial)) ∧
  TerminalHistory.commandHistory
    (TerminalHistory.step
       (TerminalHistory.run session TerminalHistory.initial)
       (env, TerminalHistory.CommandFinished (lit "  ")))
  = TerminalHistory.commandHistory
      (TerminalHistory.run session TerminalHistory.initial).
Proof.
  split.
  - apply (proj1 history_commands_not_blank session).
  - apply (proj2 history_commands_not_blank).
    repeat constructor.
Defined.

End Instances.

(** * Further properties *)

(** ** Destination names and the mentioned-module set *)

Section NamingFacts.

Lemma dropExtensionRev_run (run rest : jsstring) (seen : bool) :
  Forall (fun c => notSlashDot c = true) run ->
  dropExtensionRev (run ++ rest) seen =
  dropExtensionRev rest (match run with [] => seen | _ => true end).
Proof.
  intros H. revert seen. induction H as [|c run Hc _ IH]; intros seen; simpl.
  - reflexivity.
  - rewrite Hc, IH. by destruct run.
Qed.

(** X1. A destination that ends in a dot followed by one or more characters
    other than slash and dot loses exactly that extension. *)
Theorem replaceExtension_strips (p ext : jsstring) :
  ext ≠ [] ->
  Forall (fun c => notSlashDot c = true) ext ->
  replaceExtension (p ++ [46] ++ ext) = p.
Proof.
  intros Hne Hext. unfold replaceExtension.
  rewrite !rev_app_distr. simpl. rewrite <- app_assoc. simpl.
  rewrite dropExtensionRev_run.
  - destruct (rev ext) eqn:Hr.
    + apply (f_equal (@rev N)) in Hr. rewrite rev_involutive in Hr. done.
    + simpl. by rewrite rev_involutive.
  - apply Forall_forall. intros c Hc. rewrite Forall_forall in Hext.
    apply Hext. apply list_elem_of_In. apply list_elem_of_In, in_rev in Hc.
    exact Hc.
Qed.

(** X2. A destination whose last path segment holds no dot is left as it
    is, whatever the directory part looks like. *)
Theorem replaceExtension_keeps (dir base : jsstring) :
  Forall (fun c => notSlashDot c = true) base ->
  replaceExtension base = base ∧
  replaceExtension (dir ++ [47] ++ base) = dir ++ [47] ++ base.
Proof.
  intros Hbase.
  assert (Forall (fun c => notSlashDot c = true) (rev base)) as Hrev.
  { apply Forall_forall. intros c Hc. rewrite Forall_forall in Hbase.
    apply Hbase. apply list_elem_of_In. apply list_elem_of_In, in_rev in Hc.
    exact Hc. }
  unfold replaceExtension. split.
  - rewrite <- (app_nil_r (rev base)), dropExtensionRev_run by done.
    reflexivity.
  - rewrite !rev_app_distr. simpl. rewrite <- app_assoc. simpl.
    rewrite dropExtensionRev_run by done. reflexivity.
Qed.

(** X3. The mentioned-module set of two lists of entry points put together
    is the union of their sets. *)
Theorem allMentionedModules_app (eps1 eps2 : list IEntryPoint) :
  allMentionedModules (eps1 ++ eps2)
  = allMentionedModules eps1 ∪ allMentionedModules eps2.
Proof.
  apply set_eq. intros m. unfold allMentionedModules.
  rewrite elem_of_union, !elem_of_difference, !elem_of_added.
  split.
  - intros [[H|(ep & Hin & Hm)] Hne]; [by apply elem_of_empty in H|].
    apply elem_of_app in Hin as [Hin|Hin]; [left|right]; split; eauto.
  - intros [[[H|(ep & Hin & Hm)] Hne]|[[H|(ep & Hin & Hm)] Hne]];
      try (by apply elem_of_empty in H); split; try done; right; exists ep;
      (split; [|done]); apply elem_of_app; auto.
Qed.

End NamingFacts.

Section ResolveFacts.

Context `{host : Host JSON Language}.

(** X4. With a CommonJS configuration the entry points are the declared
    ones followed by one entry per CommonJS path, named by the path's base
    name and without include, exclude, prepend or dest; a module id is then
    mentioned when a declared entry point mentions it or it is one of those
    names, ['vs/css'] excepted. *)
Theorem resolveEntryPoints_mentions
    (opts : IOptimizeAMDTaskOpts Language) (cjs : IOptimizeCommonJSTaskOpts)
    (m : jsstring) :
  m ∈ allMentionedModules (resolveEntryPoints opts (Some cjs))
  ↔ m ≠ lit "vs/css" ∧
    ((∃ ep, ep ∈ entryPoints opts ∧ mentions ep m) ∨
     m ∈ List.map path_parse_name (cjs_entryPoints cjs)).
Proof.
  unfold allMentionedModules, resolveEntryPoints.
  rewrite elem_of_difference, elem_of_added, elem_of_singleton.
  split.
  - intros [[H|(ep & Hin & Hm)] Hne]; [by apply elem_of_empty in H|].
    split; [done|].
    apply elem_of_app in Hin as [Hin|Hin]; [left; eauto|right].
    apply list_elem_of_In, in_map_iff in Hin as (p & <- & Hp).
    destruct Hm as [->|[Hm|Hm]]; simpl in *.
    + apply list_elem_of_In, in_map, Hp.
    + by apply elem_of_nil in Hm.
    + by apply elem_of_nil in Hm.
  - intros [Hne [(ep & Hin & Hm)|Hin]]; (split; [|done]); right.
    + exists ep. split; [|done]. apply elem_of_app. by left.
    + apply list_elem_of_In, in_map_iff in Hin as (p & <- & Hp).
      eexists. split.
      * apply elem_of_app. right. apply list_elem_of_In, in_map_iff.
        exists p. split; [reflexivity|exact Hp].
      * by left.
Qed.

End ResolveFacts.

(** ** The build handler *)

Section HandlerFacts.

Context `{host : Host JSON Language}.

Abbreviation VinylFile := (Vinyl.File JSON).
Abbreviation Opts := (IOptimizeAMDTaskOpts Language).

(** The companion map of an output file, as line 174 looks it up. *)
Lemma find_companion (res : Esbuild.BuildResult) (file : Esbuild.OutputFile) :
  match List.find
          (fun f => eqb (Esbuild.path f) (Esbuild.path file ++ lit ".map"))
          (Esbuild.outputFiles res) with
  | Some m =>
      m ∈ Esbuild.outputFiles res ∧
      Esbuild.path m = Esbuild.path file ++ lit ".map"
  | None =>
      forall m, m ∈ Esbuild.outputFiles res ->
                Esbuild.path m ≠ Esbuild.path file ++ lit ".map"
  end.
Proof.
  destruct (List.find _ _) as [m|] eqn:Hf.
  - apply find_some in Hf as [Hin Heq]. split.
    + by apply list_elem_of_In.
    + by apply eqb_eq.
  - intros m Hin. apply list_elem_of_In in Hin.
    apply (find_none _ _ Hf) in Hin. by apply eqb_neq.
Qed.

(** X5. A fulfilled handler has pushed one Vinyl file per output file of
    the build, in the build's order and under the same path, all with the
    source folder as base.  Output files that are not .js keep their bytes
    and get no source map, and without a fileContentMapper every file keeps
    its bytes. *)
Theorem onBuilt_shape (opts : Opts) (res : Esbuild.BuildResult)
    (files : list VinylFile) :
  onBuilt opts res = Fulfilled files ->
  Forall2
    (fun (file : Esbuild.OutputFile) (v : VinylFile) =>
       Vinyl.path v = Esbuild.path file ∧
       Vinyl.base v = path_join [REPO_ROOT_PATH; src opts] ∧
       (endsWith (lit ".js") (Esbuild.path file) = false ->
        Vinyl.contents v = Esbuild.contents file ∧ Vinyl.sourceMap v = None) ∧
       (fileContentMapper opts = None ->
        Vinyl.contents v = Esbuild.contents file))
    (Esbuild.outputFiles res) files.
Proof.
  intros Hb. apply pushFiles_Fulfilled in Hb.
  induction Hb as [|file v rest vs Hv _ IH]; constructor; auto.
  clear IH. unfold toVinyl in Hv.
  destruct (endsWith _ _); destruct (fileContentMapper opts);
    repeat match type of Hv with
           | context [match ?x with _ => _ end] => destruct x
           end; try discriminate; injection Hv as <-; simpl;
    split_and!; try done; intros; done.
Qed.

(** X6. In a fulfilled handler a Vinyl file carries a source map exactly
    when its output file is a .js file and the build has an output named
    like it with '.map' appended; the map is the parsed text of the first
    such output.  A script without that companion is pushed without a map. *)
Theorem toVinyl_sourceMap (opts : Opts) (res : Esbuild.BuildResult)
    (file : Esbuild.OutputFile) (v : VinylFile) :
  toVinyl opts res file = Fulfilled v ->
  (Vinyl.sourceMap v = None ↔
   endsWith (lit ".js") (Esbuild.path file) = false ∨
   forall m, m ∈ Esbuild.outputFiles res ->
             Esbuild.path m ≠ Esbuild.path file ++ lit ".map") ∧
  (forall parsed,
      Vinyl.sourceMap v = Some parsed ->
      exists m, m ∈ Esbuild.outputFiles res ∧
                Esbuild.path m = Esbuild.path file ++ lit ".map" ∧
                JSON_parse (Esbuild.text m) = Some parsed).
Proof.
  unfold toVinyl. pose proof (find_companion res file) as Hc.
  destruct (endsWith _ _) eqn:Hjs.
  - destruct (List.find _ _) as [m|].
    + destruct Hc as [Hin Hp].
      destruct (JSON_parse (Esbuild.text m)) as [j|] eqn:Hj; [|discriminate].
      intros [= <-]. simpl. split.
      * split; [discriminate|]. intros [H|H]; [discriminate|].
        by destruct (H m Hin).
      * intros parsed [= <-]. eauto.
    + intros [= <-]. simpl. split; [|discriminate]. split; auto.
  - intros [= <-]. simpl. split; [|discriminate]. split; auto.
Qed.

(** X7. The handler can only fail with a SyntaxError, and only because the
    text of the companion map of some .js output does not parse. *)
Theorem onBuilt_Rejected (opts : Opts) (res : Esbuild.BuildResult)
    (e : JsError) :
  onBuilt opts res = Rejected e ->
  e = SyntaxError ∧
  exists file m,
    file ∈ Esbuild.outputFiles res ∧
    endsWith (lit ".js") (Esbuild.path file) = true ∧
    m ∈ Esbuild.outputFiles res ∧
    Esbuild.path m = Esbuild.path file ++ lit ".map" ∧
    JSON_parse (Esbuild.text m) = None.
Proof.
  unfold onBuilt.
  assert (forall l,
            (forall f, f ∈ l -> f ∈ Esbuild.outputFiles res) ->
            pushFiles opts res l = Rejected e ->
            e = SyntaxError ∧
            exists file m,
              file ∈ Esbuild.outputFiles res ∧
              endsWith (lit ".js") (Esbuild.path file) = true ∧
              m ∈ Esbuild.outputFiles res ∧
              Esbuild.path m = Esbuild.path file ++ lit ".map" ∧
              JSON_parse (Esbuild.text m) = None) as H.
  { induction l as [|file rest IH]; intros Hsub; simpl; [discriminate|].
    destruct (toVinyl opts res file) as [v|e'] eqn:Hv; simpl.
    - destruct (pushFiles opts res rest) as [vs|e'] eqn:Hr; simpl;
        [discriminate|].
      intros [= ->]. apply IH; [|done]. intros f Hf. apply Hsub. by right.
    - intros [= ->]. unfold toVinyl in Hv.
      pose proof (find_companion res file) as Hc.
      destruct (endsWith _ _) eqn:Hjs; [|discriminate].
      destruct (List.find _ _) as [m|]; [|discriminate].
      destruct Hc as [Hin Hp].
      destruct (JSON_parse (Esbuild.text m)) eqn:Hj; [discriminate|].
      injection Hv as <-. split; [done|].
      exists file, m. split_and!; try done. apply Hsub. by left. }
  apply H. auto.
Qed.

End HandlerFacts.

(** ** Banner reads and the join over the entry points *)

Section BundleFacts.

Context `{host : Host JSON Language}.

Abbreviation VinylFile := (Vinyl.File JSON).
Abbreviation Opts := (IOptimizeAMDTaskOpts Language).

Lemma prependLoop_Rejected (opts : Opts) (items : list IFile.t)
    (banner : Esbuild.Banner) (e : JsError) :
  prependLoop opts items banner = Rejected e <->
  exists before item after,
    items = before ++ item :: after ∧
    Forall (fun i => isFulfilled (readFile (prependPath opts i)) = true)
      before ∧
    readFile (prependPath opts item) = Rejected e.
Proof.
  revert banner. induction items as [|item rest IH]; intros banner; simpl.
  - split; [discriminate|]. intros (before & i & after & H & _).
    by destruct before.
  - fold (prependPath opts item).
    destruct (readFile (prependPath opts item)) as [source|e'] eqn:Hr; simpl.
    + rewrite IH. split.
      * intros (before & i & after & -> & Hb & Hi).
        exists (item :: before), i, after.
        split_and!; try done; constructor; [by rewrite Hr|done].
      * intros (before & i & after & Heq & Hb & Hi).
        destruct before as [|b before]; simpl in Heq.
        -- injection Heq as <- <-. congruence.
        -- injection Heq as <- ->. inversion Hb; subst. eauto 10.
    + split.
      * intros [= ->]. exists [], item, rest.
        split_and!; try done; constructor.
      * intros (before & i & after & Heq & Hb & Hi).
        destruct before as [|b before]; simpl in Heq.
        -- injection Heq as <- <-. congruence.
        -- injection Heq as <- ->. inversion Hb as [|? ? Hf]; subst.
           rewrite Hr in Hf. discriminate.
Qed.

(** X8. The banner of an entry point fails exactly when a read fails, and
    with the error of the first read that fails: the one of tslib, or else
    the one of the first prepend file that cannot be read.  This holds for
    every entry point, also for the one whose banner is not used. *)
Theorem computeBanner_Rejected (opts : Opts) (entryPoint : IEntryPoint)
    (e : JsError) :
  computeBanner opts entryPoint = Rejected e <->
  readFile tslibPath = Rejected e ∨
  (isFulfilled (readFile tslibPath) = true ∧
   exists before item after,
     default [] (prepend entryPoint) = before ++ item :: after ∧
     Forall (fun i => isFulfilled (readFile (prependPath opts i)) = true)
       before ∧
     readFile (prependPath opts item) = Rejected e).
Proof.
  unfold computeBanner.
  destruct (readFile tslibPath) as [tslib|e'] eqn:Ht; cbn [await isFulfilled].
  - destruct (prepend entryPoint) as [[|item items]|]; simpl default.
    + split; [discriminate|]. intros [H|[_ (before & i & after & H & _)]];
        [discriminate|by destruct before].
    + rewrite prependLoop_Rejected. split; [auto|].
      intros [H|[_ H]]; [discriminate|done].
    + split; [discriminate|]. intros [H|[_ (before & i & after & H & _)]];
        [discriminate|by destruct before].
  - split.
    + intros [= ->]. by left.
    + intros [[= ->]|[H _]]; [done|discriminate].
Qed.

Lemma startTask_Rejected (opts : Opts) (entryPoint : IEntryPoint)
    (e : JsError) :
  startTask opts entryPoint = Rejected e <->
  computeBanner opts entryPoint = Rejected e.
Proof.
  unfold startTask. destruct (computeBanner opts entryPoint); simpl;
    split; intros H; first [discriminate H | by injection H as ->].
Qed.

Lemma bundleLoop_Rejected (opts : Opts) (eps : list IEntryPoint)
    (tasks : list (Task JSON)) (e : JsError) :
  bundleLoop opts eps tasks = Rejected e <->
  exists before ep after,
    eps = before ++ ep :: after ∧
    Forall (fun ep' => isFulfilled (startTask opts ep') = true) before ∧
    startTask opts ep = Rejected e.
Proof.
  revert tasks. induction eps as [|ep rest IH]; intros tasks; simpl.
  - split; [discriminate|]. intros (before & i & after & H & _).
    by destruct before.
  - destruct (startTask opts ep) as [task|e'] eqn:Hs; simpl.
    + rewrite IH. split.
      * intros (before & i & after & -> & Hb & Hi).
        exists (ep :: before), i, after.
        split_and!; try done; constructor; [by rewrite Hs|done].
      * intros (before & i & after & Heq & Hb & Hi).
        destruct before as [|b before]; simpl in Heq.
        -- injection Heq as <- <-. congruence.
        -- injection Heq as <- ->. inversion Hb; subst. eauto 10.
    + split.
      * intros [= ->]. exists [], ep, rest.
        split_and!; try done; constructor.
      * intros (before & i & after & Heq & Hb & Hi).
        destruct before as [|b before]; simpl in Heq.
        -- injection Heq as <- <-. congruence.
        -- injection Heq as <- ->. inversion Hb as [|? ? Hf]; subst.
           rewrite Hs in Hf. discriminate.
Qed.

(** X9. When the banner of an entry point cannot be read and the banners of
    the entry points before it can, bundleAsync rejects with that read error,
    whatever the builds started so far do and in whatever order they
    settle. *)
Theorem bundleAsync_read_failure (opts : Opts)
    (before after : list IEntryPoint) (ep : IEntryPoint) (e : JsError)
    (clock : nat -> nat) :
  Forall (fun ep' => isFulfilled (computeBanner opts ep') = true) before ->
  computeBanner opts ep = Rejected e ->
  bundleAsync opts (before ++ ep :: after) clock = Rejected e.
Proof.
  intros Hb He. unfold bundleAsync.
  assert (bundleLoop opts (before ++ ep :: after) [] = Rejected e) as ->;
    [|reflexivity].
  apply bundleLoop_Rejected. exists before, ep, after. split_and!; try done.
  - clear He. induction Hb as [|ep' l Hf _ IH]; constructor; [|done].
    unfold startTask. by destruct (computeBanner opts ep').
  - by apply startTask_Rejected.
Qed.

Lemma settleInOrder_Rejected (tasks : list (Task JSON)) (order : list nat)
    (files : list VinylFile) (e : JsError) :
  settleInOrder tasks order files = Rejected e ->
  exists i, i ∈ order ∧ tasks !! i = Some (Rejected e).
Proof.
  revert files. induction order as [|i order IH]; intros files; simpl;
    [discriminate|].
  destruct (tasks !! i) as [[pushed|e']|] eqn:Hi.
  - intros H. apply IH in H as (j & Hj & Ht). exists j. split; [by right|done].
  - intros [= ->]. exists i. split; [by left|done].
  - intros H. apply IH in H as (j & Hj & Ht). exists j. split; [by right|done].
Qed.

(** X10. An error bundleAsync rejects with is never made up: it is the
    error of a banner read of one of the entry points, or the error one of
    their tasks was rejected with. *)
Theorem bundleAsync_error_provenance (opts : Opts) (eps : list IEntryPoint)
    (clock : nat -> nat) (e : JsError) :
  bundleAsync opts eps clock = Rejected e ->
  exists ep,
    ep ∈ eps ∧
    (computeBanner opts ep = Rejected e ∨
     startTask opts ep = Fulfilled (Rejected e)).
Proof.
  unfold bundleAsync.
  destruct (bundleLoop opts eps []) as [tasks|e'] eqn:Hloop; simpl.
  - destruct (Promise_all clock tasks) as [files|e'] eqn:Hall; simpl;
      [discriminate|].
    intros [= ->]. unfold Promise_all in Hall.
    apply settleInOrder_Rejected in Hall as (i & _ & Hi).
    apply bundleLoop_Fulfilled in Hloop as (started & Hst & ->).
    simpl in Hi. clear clock.
    revert i Hi. induction Hst as [|ep task eps' started' Ht _ IH];
      intros i Hi; [done|].
    destruct i as [|i]; simpl in Hi.
    + injection Hi as ->. exists ep. split; [by left|by right].
    + destruct (IH i Hi) as (ep' & Hin & H). exists ep'.
      split; [by right|done].
  - intros [= ->]. apply bundleLoop_Rejected in Hloop
      as (before & ep & after & -> & _ & Hs).
    exists ep. split.
    + apply elem_of_app. right. by left.
    + left. by apply startTask_Rejected.
Qed.

(** X11. The order in which the builds settle only permutes the result:
    when bundleAsync returns a file list under one completion order, it
    returns a permutation of that list under any other. *)
Theorem bundleAsync_order_irrelevant (opts : Opts) (eps : list IEntryPoint)
    (clock1 clock2 : nat -> nat) (files1 : list VinylFile) :
  bundleAsync opts eps clock1 = Fulfilled files1 ->
  exists files2,
    bundleAsync opts eps clock2 = Fulfilled files2 ∧ files1 ≡ₚ files2.
Proof.
  unfold bundleAsync.
  destruct (bundleLoop opts eps []) as [tasks|e] eqn:Hloop; [|discriminate].
  simpl.
  destruct (Promise_all clock1 tasks) as [fs1|e] eqn:H1; [|discriminate].
  simpl. intros [= <-].
  apply Promise_all_Fulfilled in H1 as [Hok Hp1].
  destruct (settleInOrder_all tasks
              (completionOrder clock2 (length tasks)) [] Hok) as [fs2 H2].
  fold (Promise_all clock2 tasks) in H2. rewrite H2. simpl.
  exists fs2. split; [done|].
  apply Promise_all_Fulfilled in H2 as [_ Hp2]. by rewrite Hp1, Hp2.
Qed.

Lemma insertBy_last (clock : nat -> nat) (i : nat) (l : list nat) :
  Forall (fun j => (clock j <= clock i)%nat) l ->
  insertBy clock i l = l ++ [i].
Proof.
  induction 1 as [|j l Hj _ IH]; simpl; [done|].
  apply Nat.leb_le in Hj. by rewrite Hj, IH.
Qed.

Lemma completionOrder_monotone (clock : nat -> nat) (n : nat) :
  (forall i j, (i <= j)%nat -> (clock i <= clock j)%nat) ->
  completionOrder clock n = seq 0 n.
Proof.
  intros Hmono. unfold completionOrder.
  assert (forall k a,
            fold_left (fun order i => insertBy clock i order)
              (seq a k) (seq 0 a) = seq 0 (a + k)) as H.
  { induction k as [|k IH]; intros a; simpl.
    - by rewrite Nat.add_0_r.
    - rewrite insertBy_last.
      + rewrite <- seq_S, IH. f_equal. lia.
      + apply Forall_forall. intros j Hj.
        apply list_elem_of_In, in_seq in Hj. apply Hmono. lia. }
  apply (H n 0%nat).
Qed.

(** X12. When the builds settle in the order they were started, as with the
    serial bundling the source keeps as a comment, and every entry point's
    task is fulfilled, the file list is the files of the entry points one
    after the other, in the entry points' order. *)
Theorem bundleAsync_serial (opts : Opts) (eps : list IEntryPoint)
    (clock : nat -> nat) (pushed : list (list VinylFile)) :
  (forall i j, (i <= j)%nat -> (clock i <= clock j)%nat) ->
  Forall2 (fun ep p => startTask opts ep = Fulfilled (Fulfilled p))
    eps pushed ->
  bundleAsync opts eps clock = Fulfilled (concat pushed).
Proof.
  intros Hmono Hst. unfold bundleAsync.
  assert (bundleLoop opts eps [] = Fulfilled (List.map Fulfilled pushed))
    as ->.
  { apply bundleLoop_Fulfilled. exists (List.map Fulfilled pushed).
    split; [|done]. induction Hst; simpl; constructor; auto. }
  cbn [await]. unfold Promise_all.
  rewrite completionOrder_monotone by done.
  match goal with
  | |- context [settleInOrder ?t ?o ?f] =>
      destruct (settleInOrder_all t o f) as [result Hr]
  end.
  { apply Forall_forall. intros task Ht.
    apply list_elem_of_In, in_map_iff in Ht as (p & <- & _). reflexivity. }
  rewrite Hr. simpl. f_equal.
  apply settleInOrder_Fulfilled in Hr as [_ ->]. simpl.
  rewrite pushed_by_index, List.map_map. simpl. by rewrite List.map_id.
Qed.

End BundleFacts.

(** ** Streams *)

Section StreamFacts.

Context {A : Type}.

Lemma popAt_perm (i : nat) (streams streams' : list (list A)) (x : A) :
  popAt i streams = Some (x, streams') ->
  concat streams ≡ₚ x :: concat streams'.
Proof.
  revert i streams'. induction streams as [|s rest IH]; intros i streams';
    [by destruct i|].
  destruct i as [|i]; simpl.
  - destruct s as [|y s]; [discriminate|]. by intros [= <- <-].
  - destruct (popAt i rest) as [[y rest']|] eqn:Hp;
      [|by destruct s; discriminate].
    assert (Some (y, s :: rest') = Some (x, streams') ->
            concat (s :: rest) ≡ₚ x :: concat streams') as H.
    { intros [= <- <-]. simpl.
      etrans; [apply Permutation_app_head, (IH i rest' Hp)|].
      symmetry. apply Permutation_middle. }
    by destruct s.
Qed.

(** Merging streams neither loses nor repeats a file, whatever the
    interleaving: the merged stream is a permutation of the streams put one
    after the other. *)
Theorem es_merge_perm (sched : list nat) (streams : list (list A)) :
  es_merge sched streams ≡ₚ concat streams.
Proof.
  revert streams. induction sched as [|i sched IH]; intros streams; simpl;
    [done|].
  destruct (popAt i streams) as [[x streams']|] eqn:Hp; [|apply IH].
  rewrite IH. symmetry. by apply (popAt_perm i).
Qed.

Lemma popAt_lookup (i : nat) (streams streams' : list (list A)) (x : A) :
  popAt i streams = Some (x, streams') ->
  forall k s,
    streams !! k = Some s ->
    (k = i ∧ exists s', s = x :: s' ∧ streams' !! k = Some s') ∨
    (k ≠ i ∧ streams' !! k = Some s).
Proof.
  revert i streams'. induction streams as [|s0 rest IH]; intros i streams';
    [by destruct i|].
  destruct i as [|i]; simpl.
  - destruct s0 as [|y s0]; [discriminate|]. intros [= <- <-] k s Hk.
    destruct k as [|k]; simpl in *.
    + injection Hk as <-. left. eauto.
    + right. split; [lia|done].
  - destruct (popAt i rest) as [[y rest']|] eqn:Hp;
      [|by destruct s0; discriminate].
    assert (Some (y, s0 :: rest') = Some (x, streams') ->
            forall k s,
              (s0 :: rest) !! k = Some s ->
              (k = S i ∧ exists s', s = x :: s' ∧ streams' !! k = Some s') ∨
              (k ≠ S i ∧ streams' !! k = Some s)) as H.
    { intros [= <- <-] k s Hk. destruct k as [|k]; simpl in *.
      - right. split; [lia|done].
      - destruct (IH _ _ Hp k s Hk) as [[-> H]|[Hne H]]; [left|right]; auto. }
    by destruct s0.
Qed.

Lemma sublist_concat_lookup (streams : list (list A)) (k : nat)
    (s : list A) :
  streams !! k = Some s -> s `sublist_of` concat streams.
Proof.
  revert k. induction streams as [|s0 rest IH]; intros k; [by destruct k|].
  destruct k as [|k]; simpl.
  - intros [= ->]. by apply sublist_inserts_r.
  - intros H. apply sublist_inserts_l. eauto.
Qed.

(** Merging keeps the order inside every source: each source stream is
    a subsequence of the merged stream. *)
Theorem es_merge_keeps_order (sched : list nat) (streams : list (list A))
    (k : nat) (s : list A) :
  streams !! k = Some s -> s `sublist_of` es_merge sched streams.
Proof.
  revert streams s. induction sched as [|i sched IH]; intros streams s Hk;
    simpl.
  - by eapply sublist_concat_lookup.
  - destruct (popAt i streams) as [[x streams']|] eqn:Hp; [|by apply IH].
    destruct (popAt_lookup _ _ _ _ Hp k s Hk) as [[-> (s' & -> & H)]|[_ H]].
    + apply sublist_skip. by apply IH.
    + apply sublist_cons. by apply IH.
Qed.

End StreamFacts.

(** ** Outputs of the optimisers *)

Section OutputFacts.

Context `{host : Host JSON Language}.

Abbreviation VinylFile := (Vinyl.File JSON).
Abbreviation Opts := (IOptimizeAMDTaskOpts Language).

(** X13. Before the localisation stage the stream of optimizeESMTask holds,
    in some order, what sourcemaps.write makes of every bundled file and of
    every file the resource globs resolve to: resources are neither dropped
    nor touched by anything else, whatever the interleaving of the merge. *)
Theorem optimizeESMTask_stream (opts : Opts)
    (cjsOpts : option IOptimizeCommonJSTaskOpts)
    (clock : nat -> nat) (sched : list nat) (stream : list VinylFile) :
  optimizeESMTask opts cjsOpts clock sched = Fulfilled stream ->
  exists files merged,
    bundleAsync opts (resolveEntryPoints opts cjsOpts) clock
      = Fulfilled files ∧
    stream = nlsStage opts merged ∧
    merged ≡ₚ
      flat_map (sourcemaps_write None)
        (files ++ gulp_src (resources opts) (Some (src opts))).
Proof.
  unfold optimizeESMTask.
  destruct (bundleAsync _ _ _) as [files|e]; [|discriminate].
  simpl. intros [= <-]. exists files, (mergedWithMaps opts sched files).
  split_and!; try done. unfold mergedWithMaps.
  apply Permutation_flat_map. rewrite es_merge_perm. simpl.
  by rewrite app_nil_r.
Qed.

Lemma concatenation_length (opt : IOptimizeManualTaskOpts) :
  (length (concatenation opt) <= 1)%nat.
Proof.
  unfold concatenation, gulp_concat.
  destruct (bufferContents _ _ _ _) as [[latest|] parts]; simpl; lia.
Qed.

(** X14. The manual task emits the groups' joined files and nothing else,
    each once, in some order, and never more files than there are groups. *)
Theorem optimizeManualTask_outputs (options : list IOptimizeManualTaskOpts)
    (sched : list nat) :
  optimizeManualTask options sched ≡ₚ concat (List.map concatenation options) ∧
  (length (optimizeManualTask options sched) <= length options)%nat.
Proof.
  assert (optimizeManualTask options sched
          ≡ₚ concat (List.map concatenation options)) as Hp.
  { apply es_merge_perm. }
  split; [done|]. rewrite Hp. clear Hp.
  induction options as [|opt options IH]; simpl; [lia|].
  rewrite length_app. pose proof (concatenation_length opt). lia.
Qed.

(** X15. What optimizeTask writes is, in some order, every file of the
    optimizeESMTask stream and every file of the manual task, each placed
    below the destination folder at its relative path with contents and
    source map as they were; without manual groups only the former. *)
Theorem optimizeTask_written (opts : IOptimizeTaskOpts) (clock : nat -> nat)
    (sched schedManual schedAll : list nat) (written : list VinylFile) :
  optimizeTask opts clock sched schedManual schedAll = Fulfilled written ->
  exists esm,
    optimizeESMTask (amd opts) (commonJS opts) clock sched = Fulfilled esm ∧
    written ≡ₚ
      List.map (gulp_dest (out opts))
        (esm ++ match manual opts with
                | Some groups => optimizeManualTask groups schedManual
                | None => []
                end) ∧
    Forall (fun g => Vinyl.base g = out opts) written.
Proof.
  unfold optimizeTask.
  destruct (optimizeESMTask _ _ _ _) as [esm|e]; [|discriminate].
  simpl. intros [= <-]. exists esm. split; [done|].
  assert (forall l : list VinylFile,
            Forall (fun g => Vinyl.base g = out opts)
              (List.map (gulp_dest (out opts)) l)) as Hbase.
  { induction l; simpl; constructor; auto. }
  split; [|apply Hbase].
  apply Permutation_map. rewrite es_merge_perm.
  destruct (manual opts); simpl; by rewrite ?app_nil_r.
Qed.

End OutputFacts.

(** ** The minify task *)

Section MinifyFacts.

Context `{host : Host JSON Language}.

Abbreviation VinylFile := (Vinyl.File JSON).


Lemma class_dichotomy (cls : N -> bool) (s : jsstring) :
  Exists (fun c => cls c = true) s ∨ Forall (fun c => cls c = false) s.
Proof.
  induction s as [|c s [IH|IH]].
  - right. constructor.
  - left. by apply List.Exists_cons_tl.
  - destruct (cls c) eqn:Hc.
    + left. by apply List.Exists_cons_hd.
    + right. by constructor.
Qed.

(** X17. The errors minifyJs reports are of two kinds only: the error the
    bundler rejected the build with, or the non-ASCII error naming a
    non-empty run of characters above U+00FF of the minified output and the
    file's path. *)
Theorem minifyJs_errors (f : VinylFile) (e : JsError) :
  snd (minifyJs f) = CbError e ->
  esbuild_build (minifyOptions f) = Rejected e ∨
  exists res jsFile pre run post,
    esbuild_build (minifyOptions f) = Fulfilled res ∧
    jsFile ∈ Esbuild.outputFiles res ∧
    Buffer_toString (Esbuild.contents jsFile) = pre ++ run ++ post ∧
    run ≠ [] ∧ Forall (fun c => 255 < c) run ∧
    e = Error (nonAsciiMessage run (Vinyl.path f)).
Proof.
  unfold minifyJs. cbv zeta.
  destruct (esbuild_build _) as [res|e'] eqn:Hb; [|intros [= ->]; by left].
  destruct (List.find (fun o => endsWith (lit ".js") _) _) as [jsFile|] eqn:Hf;
    [|discriminate].
  destruct (match_g _ _) as [runs|] eqn:Hm.
  - simpl. intros [= <-]. right.
    destruct (class_dichotomy nonLatin1
                (Buffer_toString (Esbuild.contents jsFile)))
      as [Hex|Hno].
    + destruct (match_g_first _ _ Hex)
        as (pre & run & post & rest & Hs & _ & Hne & Hrun & _ & Hm').
      rewrite Hm' in Hm. injection Hm as <-.
      exists res, jsFile, pre, run, post. split_and!; try done.
      * apply find_some in Hf as [Hin _]. by apply list_elem_of_In.
      * eapply Forall_impl; [exact Hrun|]. intros c. apply nonLatin1_true.
    + apply match_g_None in Hno. congruence.
  - destruct (List.find (fun o => endsWith (lit ".js.map") _) _) as [m|];
      [|discriminate].
    destruct (JSON_parse (Esbuild.text m)); discriminate.
Qed.

(** X18. When the handler of the build throws, the callback is never
    invoked.  That happens when the build has no .js output, with the file
    record untouched, or when the output passes the check but its .js.map is
    missing or does not parse; the record then already has the minified
    contents and still has its old source map. *)
Theorem minifyJs_never_called (f : VinylFile) (e : JsError) :
  snd (minifyJs f) = CbNever e ->
  exists res,
    esbuild_build (minifyOptions f) = Fulfilled res ∧
    ((List.find (fun o => endsWith (lit ".js") (Esbuild.path o))
        (Esbuild.outputFiles res) = None ∧
      e = TypeError ∧ fst (minifyJs f) = f) ∨
     (exists jsFile,
        List.find (fun o => endsWith (lit ".js") (Esbuild.path o))
          (Esbuild.outputFiles res) = Some jsFile ∧
        Vinyl.contents (fst (minifyJs f)) = Esbuild.contents jsFile ∧
        Vinyl.sourceMap (fst (minifyJs f)) = Vinyl.sourceMap f ∧
        ((List.find (fun o => endsWith (lit ".js.map") (Esbuild.path o))
            (Esbuild.outputFiles res) = None ∧ e = TypeError) ∨
         (exists m,
            List.find (fun o => endsWith (lit ".js.map") (Esbuild.path o))
              (Esbuild.outputFiles res) = Some m ∧
            JSON_parse (Esbuild.text m) = None ∧ e = SyntaxError)))).
Proof.
  unfold minifyJs.
  destruct (esbuild_build _) as [res|e'] eqn:Hb; [|discriminate].
  intros H. exists res. split; [done|]. revert H.
  destruct (List.find (fun o => endsWith (lit ".js") _) _) as [jsFile|].
  - destruct (match_g _ _); [discriminate|].
    destruct (List.find _ _) as [m|].
    + destruct (JSON_parse _) eqn:Hp; [discriminate|].
      simpl. intros [= <-]. right. exists jsFile. split_and!; try done.
      right. eauto.
    + simpl. intros [= <-]. right. exists jsFile. split_and!; try done.
      by left.
  - simpl. intros [= <-]. by left.
Qed.

(** X19. A completed minify task has written exactly what sourcemaps.write
    makes of the source files as they came out of the three stages, each
    placed below [src + '-min'] at its relative path with its contents
    unchanged: no source file is skipped and nothing is written elsewhere. *)
Theorem minifyTask_Done (src : jsstring) (url : option jsstring)
    (clock : nat -> nat) (w : list VinylFile) :
  minifyTask src url clock = Done w ->
  exists processed,
    Forall2
      (fun f f3 =>
         exists f1 f2,
           snd (jsStage f) = CbData f1 ∧
           filtered (lit "**/*.css") gulpPostcss f1 = Fulfilled f2 ∧
           filtered (lit "**/*.svg") svgmin f2 = Fulfilled f3)
      (gulp_src [src ++ lit "/**"; lit "!" ++ src ++ lit "/**/*.map"] None)
      processed ∧
    w ≡ₚ List.map (gulp_dest (src ++ lit "-min"))
           (flat_map (sourcemaps_write (sourceMappingURL url)) processed) ∧
    Forall (fun g => Vinyl.base g = src ++ lit "-min" ∧
                     exists g0, Vinyl.path g =
                                path_join [src ++ lit "-min"; relative g0] ∧
                                Vinyl.contents g = Vinyl.contents g0) w.
Proof.
  intros H. apply minifyTask_Done_iff in H as (written & Hw & ->).
  assert (exists processed,
            Forall2
              (fun f f3 =>
                 exists f1 f2,
                   snd (jsStage f) = CbData f1 ∧
                   filtered (lit "**/*.css") gulpPostcss f1 = Fulfilled f2 ∧
                   filtered (lit "**/*.svg") svgmin f2 = Fulfilled f3)
              (gulp_src [src ++ lit "/**"; lit "!" ++ src ++ lit "/**/*.map"]
                 None) processed ∧
            concat written =
              List.map (gulp_dest (src ++ lit "-min"))
                (flat_map (sourcemaps_write (sourceMappingURL url)) processed))
    as (processed & Hall & ->).
  { induction Hw as [|f ws l written Hf _ (processed & Hall & Heq)].
    - exists []. split; [constructor|reflexivity].
    - apply pipeFile_Written in Hf as (f1 & f2 & f3 & H1 & H2 & H3 & ->).
      exists (f3 :: processed). split; [constructor; eauto|].
      simpl. by rewrite Heq, List.map_app. }
  exists processed. split_and!; try done.
  induction (flat_map _ processed) as [|g l IH]; simpl; constructor; auto.
  split; [done|]. by exists g.
Qed.

(** X20. A file that is neither .js nor .css nor .svg goes through the
    stages as it is: a completed task has written what sourcemaps.write makes
    of the unchanged file. *)
Theorem minifyTask_other_types (src : jsstring) (url : option jsstring)
    (clock : nat -> nat) (f : VinylFile) (w : list VinylFile) :
  f ∈ gulp_src [src ++ lit "/**"; lit "!" ++ src ++ lit "/**/*.map"] None ->
  minimatch (lit "**/*.js") f = false ->
  minimatch (lit "**/*.css") f = false ->
  minimatch (lit "**/*.svg") f = false ->
  minifyTask src url clock = Done w ->
  forall g, g ∈ sourcemaps_write (sourceMappingURL url) f ->
            gulp_dest (src ++ lit "-min") g ∈ w.
Proof.
  intros Hin Hjs Hcss Hsvg Hw.
  destruct (minifyTask_Done_file src url clock w f Hw Hin)
    as (f1 & f2 & f3 & H1 & H2 & H3 & Hg).
  unfold jsStage in H1. rewrite Hjs in H1. injection H1 as <-.
  unfold filtered in H2, H3. rewrite Hcss in H2. injection H2 as <-.
  rewrite Hsvg in H3. injection H3 as <-. exact Hg.
Qed.

(** X21. An error the minify task ends with is the error of one of its
    files: the one its JS stage reported, or the one the CSS or SVG minifier
    rejected it with. *)
Theorem minifyTask_Failed (src : jsstring) (url : option jsstring)
    (clock : nat -> nat) (e : JsError) :
  minifyTask src url clock = Failed e ->
  exists f,
    f ∈ gulp_src [src ++ lit "/**"; lit "!" ++ src ++ lit "/**/*.map"] None ∧
    (snd (jsStage f) = CbError e ∨
     exists f1,
       snd (jsStage f) = CbData f1 ∧
       (filtered (lit "**/*.css") gulpPostcss f1 = Rejected e ∨
        exists f2,
          filtered (lit "**/*.css") gulpPostcss f1 = Fulfilled f2 ∧
          filtered (lit "**/*.svg") svgmin f2 = Rejected e)).
Proof.
  intros H. apply minifyTask_Failed_file in H as (f & Hin & Hf).
  exists f. split; [done|]. by apply pipeFile_Errs in Hf.
Qed.

End MinifyFacts.

(** ** The terminal history contribution *)

Section HistoryMoreFacts.

Import TerminalHistory.

Lemma step_history (P Q : jsstring * option jsstring -> Prop)
    (st : State) (env : Env) (event : Event) :
  (forall command, event = CommandFinished command ->
                   historyAvailable env = true ->
                   P (command, shellType env)) ->
  (forall cwd, event = DidChangeCwd cwd ->
               historyAvailable env = true ->
               Q (cwd, remoteAuthority env)) ->
  Forall P (commandHistory st) -> Forall Q (directoryHistory st) ->
  Forall P (commandHistory (step st (env, event))) ∧
  Forall Q (directoryHistory (step st (env, event))).
Proof.
  intros HP HQ Hc Hd. destruct event as [[| |id]|command|cwd]; simpl.
  - by destruct (capabilityPresent env).
  - by destruct (capabilityPresent env).
  - done.
  - split; [|done]. apply fire_invariant; [|done].
    intros history Hh. unfold onCommandFinished.
    destruct (0 <? length (trim command))%nat; [|done].
    destruct (historyAvailable env) eqn:Ha; [|done].
    apply Forall_app. split; [done|]. constructor; [|constructor]. auto.
  - split; [done|]. apply fire_invariant; [|done].
    intros history Hh. unfold onDidChangeCwd.
    destruct (historyAvailable env) eqn:Ha; [|done].
    apply Forall_app. split; [done|]. constructor; [|constructor]. auto.
Qed.

Lemma run_history (events past : list (Env * Event)) (st : State) :
  Forall (commandOf (past ++ events)) (commandHistory st) ->
  Forall (cwdOf (past ++ events)) (directoryHistory st) ->
  Forall (commandOf (past ++ events)) (commandHistory (run events st)) ∧
  Forall (cwdOf (past ++ events)) (directoryHistory (run events st)).
Proof.
  revert past st. induction events as [|[env event] events IH];
    intros past st Hc Hd; simpl; [done|].
  replace (past ++ (env, event) :: events)
    with ((past ++ [(env, event)]) ++ events) in *
    by (by rewrite <- app_assoc).
  destruct (step_history (commandOf ((past ++ [(env, event)]) ++ events))
              (cwdOf ((past ++ [(env, event)]) ++ events)) st env event)
    as [Hc' Hd']; try done.
  - intros command -> Ha. exists env, command. split_and!; try done.
    apply elem_of_app. left. apply elem_of_app. right. by left.
  - intros cwd -> Ha. exists env, cwd. split_and!; try done.
    apply elem_of_app. left. apply elem_of_app. right. by left.
  - by apply IH.
Qed.

(** X22. Every entry of the two histories comes from an event of the
    session: a recorded command is the command of a finished-command event,
    character for character and untrimmed, with the shell type the instance
    had then; a recorded directory is the directory of a cwd change with the
    remote authority of that moment; and the history service was available
    when the event fired. *)
Theorem history_provenance (events : list (Env * Event)) :
  Forall (commandOf events) (commandHistory (run events initial)) ∧
  Forall (cwdOf events) (directoryHistory (run events initial)).
Proof.
  apply (run_history events [] initial); constructor.
Qed.

Lemma run_no_listener (events : list (Env * Event)) (st : State) :
  (forall env, (env, DidAddCapabilityType CommandDetection) ∉ events) ->
  commandListeners st = 0%nat ->
  commandHistory (run events st) = commandHistory st.
Proof.
  revert st. induction events as [|[env event] events IH]; intros st Hno H0;
    simpl; [done|].
  rewrite IH.
  - destruct event as [[| |id]|command|cwd]; simpl; try done.
    + by destruct (capabilityPresent env).
    + by destruct (capabilityPresent env).
    + by rewrite H0.
  - intros env' Hin. apply (Hno env'). by right.
  - destruct event as [[| |id]|command|cwd]; simpl; try done.
    + by destruct (capabilityPresent env).
    + destruct (Hno env). by left.
Qed.

(** X23. As long as command detection has not been added to the instance,
    nothing is recorded in the command history, whatever commands finish. *)
Theorem history_needs_command_detection (events : list (Env * Event)) :
  (forall env, (env, DidAddCapabilityType CommandDetection) ∉ events) ->
  commandHistory (run events initial) = [].
Proof.
  intros Hno. by rewrite run_no_listener.
Qed.

(** X24. Once a listener is registered and the history is available, a
    finished command that holds a character other than white space is
    recorded as it is, and a directory change is recorded whatever the
    directory, the empty one included: directories are not filtered. *)
Theorem history_records (st : State) (env : Env) (text : jsstring) :
  historyAvailable env = true ->
  ((0 < commandListeners st)%nat ->
   ¬ Forall (fun c => isWhiteSpace c = true) text ->
   (text, shellType env)
   ∈ commandHistory (step st (env, CommandFinished text))) ∧
  ((0 < cwdListeners st)%nat ->
   (text, remoteAuthority env)
   ∈ directoryHistory (step st (env, DidChangeCwd text)) ∧
   ([], remoteAuthority env)
   ∈ directoryHistory (step st (env, DidChangeCwd []))).
Proof.
  intros Ha.
  assert (forall (listener : list (jsstring * option jsstring) ->
                             list (jsstring * option jsstring))
                 entry n history,
            (forall h, listener h = h ++ [entry]) ->
            (0 < n)%nat -> entry ∈ fire n listener history) as Hfire.
  { intros listener entry n. induction n as [|n IH]; intros history Hl Hn;
      [lia|].
    simpl. destruct n as [|n].
    - simpl. rewrite Hl. apply elem_of_app. right. by left.
    - apply IH; [done|lia]. }
  split.
  - intros Hn Hws. simpl. apply Hfire; [|done].
    intros h. unfold onCommandFinished.
    apply trim_length_pos, Nat.ltb_lt in Hws. by rewrite Hws, Ha.
  - intros Hn. simpl. split; apply Hfire; try done;
      intros h; unfold onDidChangeCwd; by rewrite Ha.
Qed.

End HistoryMoreFacts.

(** ** Instances of the further properties on the sample data *)

Section MoreInstances.

Import Sample TerminalHistory.

Lemma replaceExtension_strips_witness :
  replaceExtension (lit "vs/code/main.min" ++ [46] ++ lit "js")
  = lit "vs/code/main.min".
Proof.
  apply (replaceExtension_strips (lit "vs/code/main.min") (lit "js")).
  - discriminate.
  - repeat constructor.
Defined.

Lemma replaceExtension_keeps_witness :
  replaceExtension (lit "main") = lit "main" ∧
  replaceExtension (lit "vs.code" ++ [47] ++ lit "main")
  = lit "vs.code" ++ [47] ++ lit "main".
Proof.
  apply (replaceExtension_keeps (lit "vs.code") (lit "main")).
  repeat constructor.
Defined.

Lemma onBuilt_shape_witness :
  Forall2
    (fun (file : Esbuild.OutputFile) (v : Vinyl.File jsstring) =>
       Vinyl.path v = Esbuild.path file ∧
       Vinyl.base v = lit "/repo/out" ∧
       (endsWith (lit ".js") (Esbuild.path file) = false ->
        Vinyl.contents v = Esbuild.contents file ∧ Vinyl.sourceMap v = None) ∧
       (fileContentMapper opts = None ->
        Vinyl.contents v = Esbuild.contents file))
    (Esbuild.outputFiles resA) filesA.
Proof.
  apply (onBuilt_shape (host := bundleHost) opts resA filesA).
  vm_compute. reflexivity.
Defined.

Lemma toVinyl_sourceMap_witness :
  exists m,
    m ∈ Esbuild.outputFiles resA ∧
    Esbuild.path m = lit "/repo/out/vs/a.js" ++ lit ".map" ∧
    JSON_parse (Host := bundleHost) (Esbuild.text m) = Some (lit "{}").
Proof.
  apply (proj2 (toVinyl_sourceMap (host := bundleHost) opts resA
                  (output "/repo/out/vs/a.js" (lit "code;"))
                  (hd (vinyl "" "") filesA)
                  ltac:(vm_compute; reflexivity))).
  vm_compute. reflexivity.
Defined.

Lemma onBuilt_Rejected_witness :
  onBuilt (host := bundleHost) opts resBadMap = Rejected SyntaxError ∧
  exists file m,
    file ∈ Esbuild.outputFiles resBadMap ∧
    endsWith (lit ".js") (Esbuild.path file) = true ∧
    m ∈ Esbuild.outputFiles resBadMap ∧
    Esbuild.path m = Esbuild.path file ++ lit ".map" ∧
    JSON_parse (Host := bundleHost) (Esbuild.text m) = None.
Proof.
  split; [vm_compute; reflexivity|].
  apply (proj2 (onBuilt_Rejected (host := bundleHost) opts resBadMap
                  SyntaxError ltac:(vm_compute; reflexivity))).
Defined.

Lemma computeBanner_Rejected_witness :
  computeBanner (host := bundleHost) opts entryMissing
  = Rejected (Error (lit "ENOENT: /repo/out/vs/missing.js")).
Proof.
  apply (proj2 (computeBanner_Rejected (host := bundleHost) opts entryMissing
                  (Error (lit "ENOENT: /repo/out/vs/missing.js")))).
  right. split; [vm_compute; reflexivity|].
  exists [], {| IFile.path := lit "vs/missing.js" |}, [].
  split; [reflexivity|]. split; [constructor|vm_compute; reflexivity].
Defined.

Lemma bundleAsync_read_failure_witness :
  bundleAsync (host := bundleHost) opts
    ([entryA; entryBroken] ++ entryMissing :: [entryA]) (fun i => i)
  = Rejected (Error (lit "ENOENT: /repo/out/vs/missing.js")).
Proof.
  apply (bundleAsync_read_failure (host := bundleHost) opts
           [entryA; entryBroken] [entryA] entryMissing).
  - constructor; [vm_compute; reflexivity|].
    constructor; [vm_compute; reflexivity|constructor].
  - vm_compute. reflexivity.
Defined.

Lemma bundleAsync_error_provenance_witness :
  exists ep,
    ep ∈ [entryA; entryBroken] ∧
    (computeBanner (host := bundleHost) opts ep
     = Rejected (Error (lit "Build failed: /repo/out/vs/broken.js")) ∨
     startTask (host := bundleHost) opts ep
     = Fulfilled (Rejected (Error (lit "Build failed: /repo/out/vs/broken.js")))).
Proof.
  apply (bundleAsync_error_provenance (host := bundleHost) opts
           [entryA; entryBroken] (fun _ => 0%nat)).
  vm_compute. reflexivity.
Defined.

Lemma bundleAsync_order_irrelevant_witness :
  exists files2,
    bundleAsync (host := twoHost) opts [entryA; entryB] (fun i => (1 - i)%nat)
    = Fulfilled files2 ∧
    filesA ++ filesB ≡ₚ files2.
Proof.
  apply (bundleAsync_order_irrelevant (host := twoHost) opts
           [entryA; entryB] (fun i => i) (fun i => (1 - i)%nat)).
  vm_compute. reflexivity.
Defined.

Lemma bundleAsync_serial_witness :
  bundleAsync (host := twoHost) opts [entryA; entryB] (fun i => i)
  = Fulfilled (concat [filesA; filesB]).
Proof.
  apply (bundleAsync_serial (host := twoHost) opts [entryA; entryB]
           (fun i => i) [filesA; filesB]).
  - intros i j Hij. exact Hij.
  - constructor; [vm_compute; reflexivity|].
    constructor; [vm_compute; reflexivity|constructor].
Defined.

Lemma es_merge_keeps_order_witness :
  [2; 4] `sublist_of`
    es_merge [1%nat; 0%nat; 1%nat; 7%nat] [[1; 3]; [2; 4]; []].
Proof.
  apply (es_merge_keeps_order [1%nat; 0%nat; 1%nat; 7%nat]
           [[1; 3]; [2; 4]; []] 1%nat).
  reflexivity.
Defined.

Lemma optimizeESMTask_stream_witness :
  exists files merged,
    bundleAsync (host := twoHost) opts
      (resolveEntryPoints (host := twoHost) opts None) (fun i => i)
    = Fulfilled files ∧
    optimizeESMTask (host := twoHost) opts None (fun i => i) [1%nat; 0%nat]
    = Fulfilled (nlsStage (host := twoHost) opts merged) ∧
    merged ≡ₚ
      flat_map (sourcemaps_write (Host := twoHost) None)
        (files ++ gulp_src (Host := twoHost) (resources opts) (Some (src opts))).
Proof.
  destruct (optimizeESMTask (host := twoHost) opts None (fun i => i)
              [1%nat; 0%nat]) as [stream|e] eqn:Hrun;
    [|vm_compute in Hrun; discriminate Hrun].
  destruct (optimizeESMTask_stream (host := twoHost) opts None (fun i => i)
              [1%nat; 0%nat] stream Hrun) as (files & merged & Hb & Hs & Hp).
  exists files, merged. split; [exact Hb|]. split; [|exact Hp].
  by rewrite Hs.
Defined.

Lemma optimizeTask_written_witness :
  exists written,
    optimizeTask (host := twoHost) taskOpts (fun i => i) [] [] [1%nat; 0%nat]
    = Fulfilled written ∧
    Forall (fun g => Vinyl.base g = lit "/repo/dist") written.
Proof.
  destruct (optimizeTask (host := twoHost) taskOpts (fun i => i) [] []
              [1%nat; 0%nat]) as [written|e] eqn:Hrun;
    [|vm_compute in Hrun; discriminate Hrun].
  exists written. split; [reflexivity|].
  destruct (optimizeTask_written (host := twoHost) taskOpts (fun i => i)
              [] [] [1%nat; 0%nat] written Hrun) as (esm & _ & _ & Hbase).
  exact Hbase.
Defined.


Lemma minifyJs_errors_witness :
  esbuild_build (Host := brokenHost) (minifyOptions brokenFile)
  = Rejected (Error (lit "Build failed: /repo/out/broken.js")) ∨
  exists res jsFile pre run post,
    esbuild_build (Host := brokenHost) (minifyOptions brokenFile)
    = Fulfilled res ∧
    jsFile ∈ Esbuild.outputFiles res ∧
    utf8_decode (Esbuild.contents jsFile) = pre ++ run ++ post ∧
    run ≠ [] ∧ Forall (fun c => 255 < c) run ∧
    Error (lit "Build failed: /repo/out/broken.js")
    = Error (nonAsciiMessage run (Vinyl.path brokenFile)).
Proof.
  apply (minifyJs_errors (host := brokenHost) brokenFile).
  vm_compute. reflexivity.
Defined.

Lemma minifyJs_never_called_witness :
  snd (minifyJs (host := nomapHost) nomapFile) = CbNever TypeError ∧
  Vinyl.contents (fst (minifyJs (host := nomapHost) nomapFile))
  = utf8_encode (lit "n=1;") ∧
  Vinyl.sourceMap (fst (minifyJs (host := nomapHost) nomapFile)) = None.
Proof.
  split; [vm_compute; reflexivity|].
  destruct (minifyJs_never_called (host := nomapHost) nomapFile TypeError
              ltac:(vm_compute; reflexivity))
    as (res & Hb & [(Hf & _)|(jsFile & Hf & Hc & Hs & _)]).
  - vm_compute in Hb. injection Hb as <-. vm_compute in Hf. discriminate Hf.
  - vm_compute in Hb. injection Hb as <-. vm_compute in Hf.
    injection Hf as <-. split; [|exact Hs].
    rewrite Hc. vm_compute. reflexivity.
Defined.

Lemma minifyTask_Done_witness :
  exists w,
    minifyTask (host := textHost) (lit "/repo/out") None (fun i => (1 - i)%nat)
    = Done w ∧
    Forall (fun g => Vinyl.base g = lit "/repo/out-min" ∧
                     exists g0, Vinyl.path g =
                                join (lit "/") [lit "/repo/out-min";
                                                relative (host := textHost) g0] ∧
                                Vinyl.contents g = Vinyl.contents g0) w.
Proof.
  destruct (minifyTask (host := textHost) (lit "/repo/out") None
              (fun i => (1 - i)%nat))
    as [w|e|e] eqn:Hrun;
    [|vm_compute in Hrun; discriminate Hrun..].
  exists w. split; [reflexivity|].
  destruct (minifyTask_Done (host := textHost) (lit "/repo/out") None
              (fun i => (1 - i)%nat) w Hrun)
    as (processed & _ & _ & Hw).
  exact Hw.
Defined.

Lemma minifyTask_other_types_witness :
  exists w,
    minifyTask (host := textHost) (lit "/repo/out") None (fun i => i) = Done w ∧
    gulp_dest (host := textHost) (lit "/repo/out" ++ lit "-min") textFile ∈ w.
Proof.
  destruct (minifyTask (host := textHost) (lit "/repo/out") None (fun i => i))
    as [w|e|e] eqn:Hrun;
    [|vm_compute in Hrun; discriminate Hrun..].
  exists w. split; [reflexivity|].
  apply (minifyTask_other_types (host := textHost) (lit "/repo/out") None
           (fun i => i) textFile w);
    [left|vm_compute; reflexivity..|exact Hrun|left].
Defined.

Lemma minifyTask_Failed_witness :
  exists f,
    f ∈ [cleanFile; brokenFile] ∧
    (snd (jsStage (host := brokenHost) f)
     = CbError (Error (lit "Build failed: /repo/out/broken.js")) ∨
     exists f1,
       snd (jsStage (host := brokenHost) f) = CbData f1 ∧
       (filtered (host := brokenHost) (lit "**/*.css")
          (gulpPostcss (Host := brokenHost)) f1
        = Rejected (Error (lit "Build failed: /repo/out/broken.js")) ∨
        exists f2,
          filtered (host := brokenHost) (lit "**/*.css")
            (gulpPostcss (Host := brokenHost)) f1 = Fulfilled f2 ∧
          filtered (host := brokenHost) (lit "**/*.svg")
            (svgmin (Host := brokenHost)) f2
          = Rejected (Error (lit "Build failed: /repo/out/broken.js")))).
Proof.
  apply (minifyTask_Failed (host := brokenHost) (lit "/repo/out") None
           (fun i => i)).
  vm_compute. reflexivity.
Defined.

Lemma history_needs_command_detection_witness :
  commandHistory
    (run [ (env, DidAddCapabilityType CwdDetection);
           (env, CommandFinished (lit "ls")) ] initial) = [].
Proof.
  apply history_needs_command_detection.
  intros env' H.
  apply elem_of_cons in H as [H|H]; [discriminate H|].
  apply elem_of_cons in H as [H|H]; [discriminate H|].
  by apply elem_of_nil in H.
Defined.

Lemma history_records_witness :
  (lit " make ", Some (lit "bash"))
  ∈ commandHistory
      (step (run session initial) (env, CommandFinished (lit " make "))).
Proof.
  apply (proj1 (history_records (run session initial) env (lit " make ")
                  eq_refl)).
  - simpl. lia.
  - intros H. inversion H as [|c l Hc Hl]; subst.
    inversion Hl as [|c' l' Hc' Hl']; subst. discriminate Hc'.
Defined.

End MoreInstances.
